(** * Concret-app: material quantities, mix calculator and free-usage limiter

    A shallow embedding of the estimation engine of the application:
    [material.js] (class [Material]), [aggregates.js] (classes [Cement],
    [Sand], [Ballast] and the three module-level instances), [mixes.js]
    (classes [Mixes] and [Concrete]), the block module (class [Block]), the
    usage-limit middleware of the two server entry points, the POST /submit
    route of [concrete.js] and the email validation and login of
    [server.js].

    JavaScript numbers are IEEE-754 binary64 values; they are modelled by
    Rocq's primitive [float], whose operations are the same binary64
    operations with round-to-nearest-even.  A JavaScript string is modelled
    by the [string] of its UTF-8 bytes, an unpaired surrogate code unit
    being written in the same three-byte form as any other code point of
    its range; number parsing, white space and case conversion are those of
    the ASCII range. *)

From Stdlib Require Import ZArith Floats Ascii String DecimalString.
From stdpp Require Import gmap strings list.

Set Warnings "-inexact-float".
Set Default Proof Using "Type".

Local Open Scope Z_scope.

(** ** ECMAScript numbers *)

Module Number.

Definition NaN : float := nan.

(** The Number value for the real number [n / d] ([0 <= n], [0 < d]) with
    sign [s]: round to nearest, ties to even (ECMAScript's "the Number
    value for x"). *)
Definition of_ratio (s : bool) (n d : Z) : float :=
  match n with
  | Z0 => SF2Prim (S754_zero s)
  | _ =>
    let '(q, e, l) := SFdiv_core_binary prec emax n 0 d 0 in
    SF2Prim (binary_round_aux prec emax s q e l)
  end.

(** The Number value for [m * 10^e10]. *)
Definition of_decimal (s : bool) (m e10 : Z) : float :=
  of_ratio s (m * 10 ^ Z.max e10 0) (10 ^ Z.max (- e10) 0).

(** The Number value for the integer [z]. *)
Definition of_Z (z : Z) : float :=
  of_ratio (z <? 0) (Z.abs z) 1.

(** [Math.ceil]. *)
Definition ceil (x : float) : float :=
  match Prim2SF x with
  | S754_finite s m e =>
    if 0 <=? e then x
    else
      let d := 2 ^ (- e) in
      let q := Z.pos m / d in
      let r := Z.pos m mod d in
      if s then of_ratio true q 1
      else of_ratio false (if r =? 0 then q else q + 1) 1
  | _ => x
  end.

(** [ToBoolean] on a number: [+0], [-0] and [NaN] are falsy. *)
Definition to_boolean (x : float) : bool :=
  negb (is_zero x || is_nan x).

(** [x != 0] on numbers. *)
Definition neq (x y : float) : bool := negb (x =? y)%float.

(** [x >= y] on numbers. *)
Definition geb (x y : float) : bool := (y <=? x)%float.

End Number.

(** ** Completions and the state monad of method bodies *)

Inductive error : Type :=
| TypeError (msg : string)
| URIError (msg : string).

Inductive completion (A : Type) : Type :=
| Normal (a : A)
| Throw (e : error).
Arguments Normal {A} a.
Arguments Throw {A} e.

(** A method body: it reads and writes the objects in scope and completes
    normally or abruptly. *)
Definition M (S A : Type) : Type := S -> completion A * S.

#[global] Instance M_ret {S} : MRet (M S) := fun A a σ => (Normal a, σ).
#[global] Instance M_bind {S} : MBind (M S) := fun A B k c σ =>
  match c σ with
  | (Normal a, σ') => k a σ'
  | (Throw e, σ') => (Throw e, σ')
  end.

Definition throw {S A} (e : error) : M S A := fun σ => (Throw e, σ).
Definition gets {S A} (f : S -> A) : M S A := fun σ => (Normal (f σ), σ).
Definition modify {S} (f : S -> S) : M S () := fun σ => (Normal (), f σ).

(** ** ECMAScript strings and the built-in conversions the code calls *)

Module JSString.

Local Open Scope string_scope.
Local Open Scope Z_scope.

(** [String.prototype.split] with a one-character separator. *)
Fixpoint split (sep : ascii) (s : string) : list string :=
  match s with
  | EmptyString => [EmptyString]
  | String c s' =>
    if Ascii.eqb c sep then EmptyString :: split sep s'
    else match split sep s' with
         | hd :: tl => String c hd :: tl
         | [] => [String c EmptyString]
         end
  end.

(** An array element handed to [parseFloat] or [parseInt]: a missing
    element is [undefined], which both convert to the string ["undefined"]. *)
Definition element (l : list string) (index : nat) : string :=
  default "undefined" (l !! index).

(** White space and line terminators (ASCII range): TAB, LF, VT, FF, CR, SP. *)
Definition is_white_space (c : ascii) : bool :=
  let n := nat_of_ascii c in
  ((9 <=? n)%nat && (n <=? 13)%nat) || (n =? 32)%nat.

Fixpoint trim_start (s : string) : string :=
  match s with
  | String c s' => if is_white_space c then trim_start s' else s
  | EmptyString => s
  end.

(** Value of a digit character in radix [R] ([R <= 36]). *)
Definition digit_of (R : Z) (c : ascii) : option Z :=
  let n := Z.of_nat (nat_of_ascii c) in
  let d := if (48 <=? n) && (n <=? 57) then n - 48
           else if (97 <=? n) && (n <=? 122) then n - 87
           else if (65 <=? n) && (n <=? 90) then n - 55
           else R in
  if d <? R then Some d else None.

(** Longest run of radix-[R] digits at the start of [s]: the accumulated
    value, the number of digits read and the unread rest. *)
Fixpoint scan_digits (R : Z) (s : string) (acc cnt : Z) : Z * Z * string :=
  match s with
  | String c s' =>
    match digit_of R c with
    | Some d => scan_digits R s' (R * acc + d) (cnt + 1)
    | None => (acc, cnt, s)
    end
  | EmptyString => (acc, cnt, s)
  end.

Definition scan_sign (s : string) : bool * string :=
  match s with
  | String "-" s' => (true, s')
  | String "+" s' => (false, s')
  | _ => (false, s)
  end.

(** ExponentPart of a StrDecimalLiteral; [0] when there is none. *)
Definition scan_exponent (s : string) : Z :=
  match s with
  | String c s' =>
    if Ascii.eqb c "e" || Ascii.eqb c "E" then
      let '(neg, s'') := scan_sign s' in
      let '(v, cnt, _) := scan_digits 10 s'' 0 0 in
      if cnt =? 0 then 0 else if neg then - v else v
    else 0
  | EmptyString => 0
  end.

(** The global [parseFloat]: the longest prefix of the trimmed input that
    is a StrDecimalLiteral, [NaN] when there is none. *)
Definition parseFloat (input : string) : float :=
  let '(neg, s) := scan_sign (trim_start input) in
  if String.prefix "Infinity" s then (if neg then neg_infinity else infinity)
  else
    let '(ip, ni, s1) := scan_digits 10 s 0 0 in
    let '(m, nf, s2) :=
      match s1 with
      | String "." s1' => scan_digits 10 s1' ip 0
      | _ => (ip, 0, s1)
      end in
    if (ni =? 0) && (nf =? 0) then Number.NaN
    else Number.of_decimal neg m (scan_exponent s2 - nf).

(** The global [parseInt] called with one argument (radix 10, or 16 after
    a [0x] prefix). *)
Definition parseInt (input : string) : float :=
  let '(neg, s) := scan_sign (trim_start input) in
  let '(R, s0) :=
    match s with
    | String "0" (String "x" s') => (16, s')
    | String "0" (String "X" s') => (16, s')
    | _ => (10, s)
    end in
  let '(v, cnt, _) := scan_digits R s0 0 0 in
  if cnt =? 0 then Number.NaN else Number.of_ratio neg v 1.

Definition digits (z : Z) : string :=
  NilZero.string_of_uint (N.to_uint (Z.to_N z)).

Fixpoint zeros (n : nat) : string :=
  match n with O => "" | S n' => String "0" (zeros n') end.

Definition take (n : Z) (s : string) : string := substring 0 (Z.to_nat n) s.
Definition drop (n : Z) (s : string) : string :=
  substring (Z.to_nat n) (String.length s - Z.to_nat n) s.

(** [N / D < 10 ^ n]. *)
Definition below_pow10 (N D n : Z) : bool :=
  if 0 <=? n then N <? D * 10 ^ n else N * 10 ^ (- n) <? D.

(** The least [n' >= n] with [N / D < 10 ^ n']. *)
Fixpoint exponent_up (fuel : nat) (N D n : Z) : Z :=
  match fuel with
  | O => n
  | S fuel' =>
    if below_pow10 N D n then n else exponent_up fuel' N D (n + 1)
  end.

(** For [N / D < 10 ^ n]: the least [n' <= n] with [N / D < 10 ^ n']. *)
Fixpoint exponent_down (fuel : nat) (N D n : Z) : Z :=
  match fuel with
  | O => n
  | S fuel' =>
    if below_pow10 N D (n - 1) then exponent_down fuel' N D (n - 1) else n
  end.

(** The [n] with [10 ^ (n - 1) <= N / D < 10 ^ n], for a binary64 value
    [N / D] (between [2 ^ -1074] and [2 ^ 1024]). *)
Definition decimal_exponent (N D : Z) : Z :=
  if D <=? N then exponent_up 310 N D 1 else exponent_down 325 N D 0.

(** A [k]-digit integer [s] such that the Number value for
    [s * 10 ^ (n - k)] is [x], closest to [x = N / D] when there are two. *)
Definition significand (x : float) (N D n k : Z) : option Z :=
  let num := if 0 <=? k - n then N * 10 ^ (k - n) else N in
  let den := if 0 <=? k - n then D else D * 10 ^ (n - k) in
  let lo := num / den in
  let hi := lo + 1 in
  let is_x s := (Number.of_decimal false s (n - k) =? x)%float in
  match is_x lo, is_x hi with
  | true, true =>
    Some match 2 * (num mod den) ?= den with
         | Lt => lo
         | Gt => hi
         | Eq => if Z.even lo then lo else hi
         end
  | true, false => Some lo
  | false, true => Some hi
  | false, false => None
  end.

(** The least number of digits [k' >= k] that identifies [x], with its
    significand. *)
Fixpoint shortest (fuel : nat) (x : float) (N D n k : Z) : Z * Z :=
  match fuel with
  | O => (N * 10 ^ (k - n) / D, k)
  | S fuel' =>
    match significand x N D n k with
    | Some s => (s, k)
    | None => shortest fuel' x N D n (k + 1)
    end
  end.

(** [Number::toString] in radix 10, as used by template literals and
    string concatenation. *)
Definition of_number (x : float) : string :=
  match Prim2SF x with
  | S754_nan => "NaN"
  | S754_zero _ => "0"
  | S754_infinity s => (if s then "-" else "") +:+ "Infinity"
  | S754_finite sg m e =>
    let N := if 0 <=? e then Z.pos m * 2 ^ e else Z.pos m in
    let D := if 0 <=? e then 1 else 2 ^ (- e) in
    let n0 := decimal_exponent N D in
    let '(s0, k0) := shortest 17 (abs x) N D n0 1 in
    let '(s, k, n) := if s0 =? 10 ^ k0 then (1, 1, n0 + 1) else (s0, k0, n0) in
    let ds := digits s in
    (if sg then "-" else "") +:+
    (if (k <=? n) && (n <=? 21) then ds +:+ zeros (Z.to_nat (n - k))
     else if (0 <? n) && (n <=? 21) then take n ds +:+ "." +:+ drop n ds
     else if (-6 <? n) && (n <=? 0) then "0." +:+ zeros (Z.to_nat (- n)) +:+ ds
     else
       let ex := n - 1 in
       let es := (if ex <? 0 then "-" else "+") +:+ digits (Z.abs ex) in
       if k =? 1 then ds +:+ "e" +:+ es
       else take 1 ds +:+ "." +:+ drop 1 ds +:+ "e" +:+ es)
  end.

Definition hex_digit (n : nat) : ascii :=
  ascii_of_nat (if (n <? 10)%nat then 48 + n else 55 + n)%nat.

(** Characters [encodeURIComponent] leaves as they are. *)
Definition uri_unreserved (c : ascii) : bool :=
  let n := nat_of_ascii c in
  ((48 <=? n) && (n <=? 57) || (65 <=? n) && (n <=? 90)
   || (97 <=? n) && (n <=? 122))%nat
  || existsb (Ascii.eqb c) ["-"; "_"; "."; "!"; "~"; "*"; "'"; "("; ")"]%char.

(** The three bytes that stand for a surrogate code unit, [ED A0..BF 80..BF].
    A string is modelled by its UTF-8 bytes, and a surrogate that is not part
    of a pair appears in this form. *)
Definition is_surrogate (c1 c2 c3 : ascii) : bool :=
  ((nat_of_ascii c1 =? 237) && (160 <=? nat_of_ascii c2) && (nat_of_ascii c2 <=? 191)
   && (128 <=? nat_of_ascii c3) && (nat_of_ascii c3 <=? 191))%nat.

(** [encodeURIComponent]: every byte that is not unreserved is written as
    [%XX]; an unpaired surrogate makes it throw a URIError. *)
Fixpoint encodeURIComponent (s : string) : completion string :=
  match s with
  | EmptyString => Normal ""
  | String c s' =>
    if match s' with
       | String c2 (String c3 _) => is_surrogate c c2 c3
       | _ => false
       end
    then Throw (URIError "URI malformed")
    else
      match encodeURIComponent s' with
      | Throw e => Throw e
      | Normal rest =>
        if uri_unreserved c then Normal (String c rest)
        else
          let n := nat_of_ascii c in
          Normal (String "%" (String (hex_digit (n / 16))
                    (String (hex_digit (n mod 16)) rest)))
      end
  end.

End JSString.

(** ** material.js *)

Module Material.

Local Open Scope string_scope.

Record t : Type := new {
  name : string;
  quantity : float;
  unit : string;
  price : float
}.

Definition set_quantity (q : float) (m : t) : t :=
  {| name := name m; quantity := q; unit := unit m; price := price m |}.

(** [get cost()] *)
Definition cost (this : t) : float :=
  (quantity this * price this)%float.

(** [describe()]; [None] is the [undefined] of a body that falls through. *)
Definition describe (this : t) : option string :=
  if Number.neq (quantity this) 0 then
    Some (name this +:+ "..." +:+ JSString.of_number (quantity this) +:+ "..."
          +:+ unit this +:+ "..." +:+ JSString.of_number (price this) +:+ "..."
          +:+ JSString.of_number (cost this))
  else None.

End Material.

(** ** aggregates.js *)

Module Aggregates.

Local Open Scope string_scope.

(** A [Cement], [Sand] or [Ballast]: a [Material] with a [factor]. *)
Record t : Type := mk {
  base : Material.t;
  factor : float
}.

Definition Cement (quantity price factor : float) : t :=
  {| base := Material.new "cement" quantity "bags" price; factor := factor |}.

Definition Sand (quantity price factor : float) : t :=
  {| base := Material.new "sand" quantity "tons" price; factor := factor |}.

Definition Ballast (quantity price factor : float) : t :=
  {| base := Material.new "ballast" quantity "tons" price; factor := factor |}.

Definition cement : t := Cement 50 700 28.96.
Definition sand : t := Sand 21 1350 1.8.
Definition ballast : t := Ballast 42 2500 2.2.

Definition quantity (a : t) : float := Material.quantity (base a).

(** [material.quantity = q] *)
Definition set_quantity (q : float) (a : t) : t :=
  {| base := Material.set_quantity q (base a); factor := factor a |}.

Definition describe (a : t) : option string := Material.describe (base a).

End Aggregates.

(** ** mixes.js *)

Module Mixes.

Local Open Scope string_scope.

(** The [ratio] argument as the route hands it over: the form field as a
    string, [undefined] when the field is missing from the request body, or
    the array or object the extended URL-encoded parser builds from a field
    written with brackets ([text] is its string form). *)
Inductive ratio_value : Type :=
| Undefined
| Str (s : string)
| Object (text : string).

Record t : Type := new {
  volume : float;
  factor : float;
  ratio : ratio_value;
  hasBallast : bool
}.

(** The objects a method can reach: the calculator [this] and the
    module-level [materialList], whose elements are the shared instances
    [cement], [sand] and [ballast] of aggregates.js. *)
Record heap : Type := Heap {
  this : t;
  materialList : list Aggregates.t
}.

Definition initial_materialList : list Aggregates.t :=
  [Aggregates.cement; Aggregates.sand; Aggregates.ballast].

Definition set_material (index : nat) (a : Aggregates.t) (h : heap) : heap :=
  {| this := this h; materialList := <[index := a]> (materialList h) |}.

Definition getRatio : M heap (list string) :=
  ratio ← gets (fun h => ratio (this h));
  match ratio with
  | Str ratio => mret (JSString.split ":" ratio)
  | Undefined =>
    throw (TypeError "Cannot read properties of undefined (reading 'split')")
  | Object _ => throw (TypeError "ratio.split is not a function")
  end.

Definition getAggregate (index : nat) : M heap float :=
  ratio ← getRatio;
  mret (JSString.parseFloat (JSString.element ratio index)).

Definition getSum : M heap float :=
  hasBallast ← gets (fun h => hasBallast (this h));
  if negb hasBallast then
    a0 ← getAggregate 0;
    a1 ← getAggregate 1;
    mret (a0 + a1)%float
  else
    a0 ← getAggregate 0;
    a1 ← getAggregate 1;
    a2 ← getAggregate 2;
    mret (a0 + a1 + a2)%float.

Definition getQuantity (index : nat) : M heap (option string) :=
  sum ← getSum;
  comp ← getAggregate index;
  volume ← gets (fun h => volume (this h));
  material ← gets (fun h => materialList h !! index);
  match material with
  | None =>
    throw (TypeError "Cannot read properties of undefined (reading 'factor')")
  | Some material =>
    let factor := Aggregates.factor material in
    mixFactor ← gets (fun h => Mixes.factor (this h));
    let dryVolume := (volume * mixFactor)%float in
    let material :=
      Aggregates.set_quantity
        (Number.ceil (comp / sum * dryVolume * factor)%float) material in
    _ ← modify (set_material index material);
    mret (Aggregates.describe material)
  end.

End Mixes.

Module Concrete.

(** [class Concrete extends Mixes] *)
Definition getCost : M Mixes.heap (list (option string)) :=
  r0 ← Mixes.getQuantity 0;
  r1 ← Mixes.getQuantity 1;
  r2 ← Mixes.getQuantity 2;
  mret [r0; r1; r2].

(** [new Concrete(volume, factor, ratio, hasBallast).getCost()] evaluated
    with the material list [l]. *)
Definition run (l : list Aggregates.t) (c : Mixes.t) :
  completion (list (option string)) * Mixes.heap :=
  getCost (Mixes.Heap c l).

End Concrete.

(** ** The block module *)

Module Block.

Local Open Scope string_scope.

Record t : Type := mk {
  base : Material.t;
  size : string
}.

Definition new (quantity price : float) (size : string) : t :=
  {| base := Material.new "blocks" quantity "no" price; size := size |}.

Definition getBlockDimensions (this : t) : list float :=
  let blockSize := size this in
  let blockDimensions := JSString.split "x" blockSize in
  let length := (JSString.parseInt (JSString.element blockDimensions 0) / 1000)%float in
  let thickness := (JSString.parseInt (JSString.element blockDimensions 1) / 1000)%float in
  let height := (JSString.parseInt (JSString.element blockDimensions 2) / 1000)%float in
  [length; thickness; height].

(** [dimensions[i]] in arithmetic position: a missing element is
    [undefined], whose Number value is [NaN]. *)
Definition at_index (dimensions : list float) (i : nat) : float :=
  default Number.NaN (dimensions !! i).

Definition getVolume (this : t) : float :=
  let dimensions := getBlockDimensions this in
  (at_index dimensions 0 * at_index dimensions 1 * at_index dimensions 2
   * Material.quantity (base this))%float.

Definition getBlocksPerSquareMeter (this : t) : float :=
  let dimensions := getBlockDimensions this in
  let length := (at_index dimensions 0 + 0.02)%float in
  let height := (at_index dimensions 2 + 0.02)%float in
  let area := (length * height)%float in
  (1 / area)%float.

Definition block : t := new 3000 65 "360x180x180".

End Block.

(** ** The usage-limit middleware (both server entry points) *)

Module UsageLimiter.

Local Open Scope string_scope.

(** [const usageTracker = {}] is an ordinary object: the map holds its own
    properties, and a key it does not own is looked up in
    [Object.prototype]. *)
Definition Object_prototype : list string :=
  ["constructor"; "__defineGetter__"; "__defineSetter__"; "hasOwnProperty";
   "__lookupGetter__"; "__lookupSetter__"; "isPrototypeOf";
   "propertyIsEnumerable"; "toString"; "valueOf"; "__proto__";
   "toLocaleString"].

(** What [usageTracker[email]] evaluates to. *)
Inductive value : Type :=
| Undefined
| Num (x : float)
| Inherited.  (* a function or object found on [Object.prototype] *)

Definition ToBoolean (v : value) : bool :=
  match v with
  | Undefined => false
  | Num x => Number.to_boolean x
  | Inherited => true
  end.

(** [ToNumber]; a built-in function or object converts through its string
    form, which is not a numeric literal. *)
Definition ToNumber (v : value) : float :=
  match v with
  | Num x => x
  | Undefined | Inherited => Number.NaN
  end.

(** [usageTracker[email]]: [__proto__] is an accessor of
    [Object.prototype] and always yields the prototype object. *)
Definition get (usageTracker : gmap string float) (email : string) : value :=
  if decide (email = "__proto__") then Inherited
  else match usageTracker !! email with
       | Some x => Num x
       | None => if decide (email ∈ Object_prototype) then Inherited else Undefined
       end.

(** [usageTracker[email] = x] for a number [x]: the [__proto__] setter
    ignores a value that is neither an object nor [null]; every other key
    becomes (or stays) an own property. *)
Definition set (usageTracker : gmap string float) (email : string) (x : float) :
  gmap string float :=
  if decide (email = "__proto__") then usageTracker
  else <[email := x]> usageTracker.

Definition FREE_LIMIT : float := 3.

(** What the middleware does with a request. *)
Inductive response : Type :=
| Next                                           (* [next()] *)
| Json (status : nat) (message redirectTo : string)
| Thrown (e : error).                            (* the middleware throws *)

(** [if (!usageTracker[email]) usageTracker[email] = 0;] *)
Definition initialize (email : string) (usageTracker : gmap string float) :
  gmap string float :=
  if negb (ToBoolean (get usageTracker email)) then set usageTracker email 0
  else usageTracker.

(** The middleware, from the identity [email] on.  The identity is
    [req.query.email || req.body.email || "guest"] in one entry point and
    [req.session.email || "guest"] in the other: any non-empty string the
    client sends. *)
Definition checkLimit (email : string) (usageTracker : gmap string float) :
  response * gmap string float :=
  let usageTracker := initialize email usageTracker in
  if Number.geb (ToNumber (get usageTracker email)) FREE_LIMIT then
    (match JSString.encodeURIComponent email with
     | Normal component =>
       Json 403 "Free limit reached. Please subscribe to continue."
            ("/subscribe.html?email=" +:+ component)
     | Throw e => Thrown e
     end,
     usageTracker)
  else
    (Next, set usageTracker email (ToNumber (get usageTracker email) + 1)%float).

(** The effect of the login handler on the tracker. *)
Definition login (email : option string) (usageTracker : gmap string float) :
  gmap string float :=
  match email with
  | Some (String c s) => initialize (String c s) usageTracker
  | Some EmptyString | None => usageTracker
  end.

(** Consecutive requests of one identity: the responses, in order, and the
    tracker they leave. *)
Fixpoint requests (n : nat) (email : string) (usageTracker : gmap string float) :
  list response * gmap string float :=
  match n with
  | O => ([], usageTracker)
  | S n' =>
    let '(r, usageTracker) := checkLimit email usageTracker in
    let '(rs, usageTracker) := requests n' email usageTracker in
    (r :: rs, usageTracker)
  end.

(** The trackers the server can be in. *)
Inductive reachable : gmap string float -> Prop :=
| reachable_start : reachable ∅
| reachable_request email usageTracker :
    reachable usageTracker -> reachable (checkLimit email usageTracker).2
| reachable_login email usageTracker :
    reachable usageTracker -> reachable (login email usageTracker).

End UsageLimiter.

(** ** concrete.js: the route that runs the calculator *)

Module ConcreteRoute.

Local Open Scope string_scope.

(** The double quote character. *)
Definition dq : string := String "034" EmptyString.

(** A field of the parsed [req.body]: a string, missing, or the array or
    object of a name written with brackets or sent more than once. *)
Definition field : Type := Mixes.ratio_value.

(** A field in a template literal or as the argument of [parseFloat]: a
    missing field is [undefined] and reads "undefined", an array or object
    reads as its string form. *)
Definition text (value : field) : string :=
  match value with
  | Mixes.Undefined => "undefined"
  | Mixes.Str s => s
  | Mixes.Object text => text
  end.

(** [r => `<li>${r}</li>`] *)
Definition item (r : option string) : string :=
  "<li>" +:+ default "undefined" r +:+ "</li>".

(** [Array.prototype.join("")] *)
Definition join (l : list string) : string := foldr String.append "" l.

Definition page_head : string :=
  "
                    <html>
                    <head>
                        <link
                            rel=" +:+ dq +:+ "stylesheet" +:+ dq +:+ "
                            href=" +:+ dq +:+ "/styles.css" +:+ dq +:+ "
                        >
                    </head>
                    <body>
                    <h1>
                        CONCRETE MIX DATA
                    </h1>
                    <p>
                        volume:".

Definition page_volume_ratio : string :=
  "]
                    </p>
                    <p>
                        ratio:".

Definition page_ratio_list : string :=
  "]
                    </p>
                    <h2>Materials</h2>
                    <ul>
                        ".

Definition page_tail : string :=
  "
                        </ul>
                    <a href=" +:+ dq +:+ "/" +:+ dq +:+ ">go back</a>
                    </body>
                    </html>
                ".

(** The page sent by POST /submit. *)
Definition page (concreteVolume concreteRatio : field)
    (results : list (option string)) : string :=
  page_head +:+ text concreteVolume +:+ page_volume_ratio +:+ text concreteRatio
  +:+ page_ratio_list +:+ join (item <$> results) +:+ page_tail.

(** The handler of POST /submit on the two fields of the parsed [req.body],
    each a string, missing, or an array or object; the state is the
    module-level material list.  An error thrown by the handler is answered
    by the framework, not by this code. *)
Definition submit (concreteVolume concreteRatio : field)
    (materialList : list Aggregates.t) : completion string * list Aggregates.t :=
  let concrete :=
    Mixes.new (JSString.parseFloat (text concreteVolume)) 1.54 concreteRatio
      true in
  match Concrete.getCost (Mixes.Heap concrete materialList) with
  | (Normal results, h) =>
    (Normal (page concreteVolume concreteRatio results), Mixes.materialList h)
  | (Throw e, h) => (Throw e, Mixes.materialList h)
  end.

End ConcreteRoute.

(** ** Regular expressions *)

Module RegExp.

(** The patterns the code uses: character classes, alternation, sequence and
    repetition. *)
Inductive t : Type :=
| Never
| Empty
| Class (p : ascii -> bool)
| Alt (r1 r2 : t)
| Seq (r1 r2 : t)
| Star (r : t).

(** [r+] *)
Definition Plus (r : t) : t := Seq r (Star r).

(** A literal character. *)
Definition Char (c : ascii) : t := Class (Ascii.eqb c).

(** Whether the pattern matches the empty string. *)
Fixpoint nullable (r : t) : bool :=
  match r with
  | Never | Class _ => false
  | Empty | Star _ => true
  | Alt r1 r2 => nullable r1 || nullable r2
  | Seq r1 r2 => nullable r1 && nullable r2
  end.

(** The pattern of what may follow the character [c]. *)
Fixpoint derive (c : ascii) (r : t) : t :=
  match r with
  | Never | Empty => Never
  | Class p => if p c then Empty else Never
  | Alt r1 r2 => Alt (derive c r1) (derive c r2)
  | Seq r1 r2 =>
    if nullable r1 then Alt (Seq (derive c r1) r2) (derive c r2)
    else Seq (derive c r1) r2
  | Star r => Seq (derive c r) (Star r)
  end.

(** [/^r$/.test(s)]: the whole string matches the pattern. *)
Fixpoint test (r : t) (s : string) : bool :=
  match s with
  | EmptyString => nullable r
  | String c s' => test (derive c r) s'
  end.

End RegExp.

(** ** server.js: email validation and login *)

Module Server.

Local Open Scope string_scope.

(** [String.prototype.toLowerCase] (ASCII letters). *)
Definition lower (c : ascii) : ascii :=
  let n := nat_of_ascii c in
  if ((65 <=? n) && (n <=? 90))%nat then ascii_of_nat (n + 32) else c.

Fixpoint toLowerCase (s : string) : string :=
  match s with
  | EmptyString => EmptyString
  | String c s' => String (lower c) (toLowerCase s')
  end.

(** [String.prototype.includes] *)
Fixpoint includes (s search : string) : bool :=
  String.prefix search s
  || match s with
     | EmptyString => false
     | String _ s' => includes s' search
     end.

(** The class [[^\s@]] (white space of the ASCII range). *)
Definition not_space_at (c : ascii) : bool :=
  negb (JSString.is_white_space c || Ascii.eqb c "@").

(** [/^[^\s@]+@[^\s@]+\.[^\s@]+$/] *)
Definition emailRegex : RegExp.t :=
  RegExp.Seq (RegExp.Plus (RegExp.Class not_space_at))
    (RegExp.Seq (RegExp.Char "@")
      (RegExp.Seq (RegExp.Plus (RegExp.Class not_space_at))
        (RegExp.Seq (RegExp.Char ".")
          (RegExp.Plus (RegExp.Class not_space_at))))).

Definition isValidEmail (email : string) : bool :=
  RegExp.test emailRegex email.

(** The objects the validation functions return. *)
Record validation : Type := Validation {
  valid : bool;
  reason : option string;
  mxRecords : option nat;
  warning : option string
}.

Definition disposableDomains : list string :=
  ["tempmail.com"; "guerrillamail.com"; "mailinator.com";
   "10minutemail.com"; "throwaway.com"; "fakeinbox.com";
   "yopmail.com"; "trashmail.com"; "disposable.com";
   "temp-mail.org"; "getairmail.com"; "sharklasers.com";
   "maildrop.cc"; "tempail.com"; "fake-mail.com";
   "throwawaymail.com"; "tempmail.net"; "fakeinbox.com";
   "trashmail.net"; "dispostable.com"; "mailmetrash.com"].

(** [email.split('@')[1]] *)
Definition after_at (email : string) : option string :=
  JSString.split "@" email !! 1%nat.

Definition checkDisposableEmail (email : string) : completion validation :=
  match after_at email with
  | None =>
    Throw (TypeError "Cannot read properties of undefined (reading 'toLowerCase')")
  | Some d =>
    let domain := toLowerCase d in
    if bool_decide (domain ∈ disposableDomains) then
      Normal (Validation false
        (Some "Temporary or disposable email addresses are not allowed for security reasons. Please use a permanent email address.")
        None None)
    else Normal (Validation true None None None)
  end.

(** How [dns.resolveMx(domain)] settles: with a number of records, or
    rejected with an error code. *)
Inductive mx_result : Type :=
| Records (length : nat)
| Rejected (code : string).

(** [enhancedEmailValidation], given how the MX lookup of a domain settles. *)
Definition enhancedEmailValidation (resolveMx : string -> mx_result)
    (email : string) : completion validation :=
  if negb (isValidEmail email) then
    Normal (Validation false
      (Some "Invalid email format. Please enter a valid email address (e.g., yourname@example.com).")
      None None)
  else
    match checkDisposableEmail email with
    | Throw e => Throw e
    | Normal disposableCheck =>
      if negb (valid disposableCheck) then Normal disposableCheck
      else
        match after_at email with
        | Some domain =>
          match resolveMx domain with
          | Records O =>
            Normal (Validation false
              (Some "This email domain does not exist or does not accept emails. Please check the email address for typos.")
              None None)
          | Records length => Normal (Validation true None (Some length) None)
          | Rejected code =>
            if String.eqb code "ENOTFOUND" then
              Normal (Validation false
                (Some "The email domain does not exist. Please check the email address for typos.")
                None None)
            else if String.eqb code "ENODATA" then
              Normal (Validation false
                (Some "This domain exists but does not accept emails. Please use a different email address.")
                None None)
            else Normal (Validation true None None (Some "Domain verification failed"))
          end
        | None =>
          (* [resolveMx(undefined)] is rejected, and the catch lets it pass *)
          Normal (Validation true None None (Some "Domain verification failed"))
        end
    end.

Record session : Type := Session {
  email : option string;
  verified : bool
}.

Inductive response : Type :=
| ErrorPage (message : string)      (* [sendErrorResponse]: status 400 *)
| Redirect (location : string).

Definition suspiciousDomains : list string :=
  ["example.com"; "test.com"; "localhost"; "test"].

(** The handler of POST /login on [req.body.email] and the session. *)
Definition login (resolveMx : string -> mx_result) (body_email : option string)
    (s : session) : response * session :=
  match body_email with
  | None | Some EmptyString => (ErrorPage "Email is required to continue.", s)
  | Some email =>
    match enhancedEmailValidation resolveMx email with
    | Throw _ =>
      (ErrorPage "An error occurred during email verification. Please try again.", s)
    | Normal validationResult =>
      if negb (valid validationResult) then
        (ErrorPage (default "undefined" (reason validationResult)), s)
      else
        match after_at email with
        | None =>
          (ErrorPage "An error occurred during email verification. Please try again.", s)
        | Some d =>
          let domain := toLowerCase d in
          if existsb (fun suspicious => includes domain suspicious) suspiciousDomains
          then (ErrorPage "Please use a real email domain (Gmail, Outlook, Yahoo, etc.)", s)
          else (Redirect "/", Session (Some email) true)
        end
    end
  end.

End Server.

(** ** Values computed by the [Mixes] methods *)

(** The Number a ratio component is read as. *)
Definition part (parts : list string) (index : nat) : float :=
  JSString.parseFloat (JSString.element parts index).

(** The value [getSum] computes from the split ratio. *)
Definition sum_of (hasBallast : bool) (parts : list string) : float :=
  if hasBallast then (part parts 0 + part parts 1 + part parts 2)%float
  else (part parts 0 + part parts 1)%float.

(** The value [getQuantity] assigns. *)
Definition quantity_of (c : Mixes.t) (parts : list string) (index : nat)
    (materialFactor : float) : float :=
  Number.ceil (part parts index / sum_of (Mixes.hasBallast c) parts
               * (Mixes.volume c * Mixes.factor c) * materialFactor)%float.

(** ** Vocabulary of the statements *)

(** Number of components of a mix: cement and sand, and ballast if present. *)
Definition components (hasBallast : bool) : nat := if hasBallast then 3 else 2.

(** The numeric parts of a ratio string. *)
Definition ratio_parts (r : string) : list float :=
  JSString.parseFloat <$> JSString.split ":" r.

(** The sum of the parts, added from left to right. *)
Definition sum_parts (ps : list float) : float :=
  match ps with
  | [] => 0%float
  | p :: ps => foldl add p ps
  end.

(** A valid ratio: as many parts as the mix has components, each one read
    as a number. *)
Definition valid_ratio (hasBallast : bool) (r : string) : Prop :=
  length (ratio_parts r) = components hasBallast
  /\ Forall (fun p => is_nan p = false) (ratio_parts r).

(** The catalog constants of a material: all its fields but the quantity. *)
Definition constants (a : Aggregates.t) : string * string * float * float :=
  (Material.name (Aggregates.base a), Material.unit (Aggregates.base a),
   Material.price (Aggregates.base a), Aggregates.factor a).

(** The description [describe()] gives for a material with quantity [NaN]. *)
Definition NaN_description (a : Aggregates.t) : string :=
  (Material.name (Aggregates.base a) +:+ "..." +:+ "NaN" +:+ "..."
   +:+ Material.unit (Aggregates.base a) +:+ "..."
   +:+ JSString.of_number (Material.price (Aggregates.base a)) +:+ "..."
   +:+ "NaN")%string.

(** A computation that fails: it completes by throwing an error. *)
Definition rejected {A} (o : completion A) : Prop := exists e, o = Throw e.

(** The ratio is a string, the one kind of value with a [split] method. *)
Definition is_string (ratio : Mixes.ratio_value) : bool :=
  match ratio with
  | Mixes.Str _ => true
  | Mixes.Undefined | Mixes.Object _ => false
  end.

(** The error of [ratio.split(":")] on a ratio that is not a string. *)
Definition split_error (ratio : Mixes.ratio_value) : error :=
  match ratio with
  | Mixes.Undefined =>
    TypeError "Cannot read properties of undefined (reading 'split')"
  | Mixes.Str _ | Mixes.Object _ => TypeError "ratio.split is not a function"
  end.

(** The position of a character in a string, counted from [n]. *)
Fixpoint position (c : ascii) (s : string) (n : Z) : option Z :=
  match s with
  | EmptyString => None
  | String c' s' => if Ascii.eqb c c' then Some n else position c s' (n + 1)
  end.

(** A decimal digit and its value. *)
Definition digit_value (c : ascii) : option Z := position c "0123456789" 0.

(** The integer a string of decimal digits denotes, after the digits [acc]. *)
Fixpoint numeral (s : string) (acc : Z) : option Z :=
  match s with
  | EmptyString => Some acc
  | String c s' =>
    match digit_value c with
    | Some d => numeral s' (10 * acc + d)
    | None => None
    end
  end.

(** A numeric millimeter segment of a block size: a non-empty string of
    decimal digits, and the integer it denotes. *)
Definition millimeters (s : string) : option Z :=
  match s with
  | EmptyString => None
  | String _ _ => numeral s 0
  end.

(** The values the limiter stores under an identity: a count from 0 to the
    free limit, or [NaN]. *)
Definition stored_count (x : float) : Prop :=
  x = Number.NaN \/ x = 0%float \/ x = 1%float \/ x = 2%float \/ x = 3%float.

(** Every own property of the tracker is such a value. *)
Definition bounded (usageTracker : gmap string float) : Prop :=
  forall email x, usageTracker !! email = Some x -> stored_count x.

(** The rejection of a request of [email] once the free limit is reached:
    the 403 with the redirect, or the URIError of [encodeURIComponent] when
    the identity holds an unpaired surrogate. *)
Definition limit_reached (email : string) : UsageLimiter.response :=
  match JSString.encodeURIComponent email with
  | Normal component =>
    UsageLimiter.Json 403 "Free limit reached. Please subscribe to continue."
      ("/subscribe.html?email=" +:+ component)%string
  | Throw e => UsageLimiter.Thrown e
  end.

(** ** Vocabulary of the further properties *)

(** What reaches the usage limiter: a request of an identity, or a run of
    the login handler. *)
Inductive event : Type :=
| Request (email : string)
| LoggedIn (email : option string).

(** The server on a sequence of events: the answers to the requests, with
    their identities, and the tracker left. *)
Fixpoint serve (events : list event) (usageTracker : gmap string float) :
  list (string * UsageLimiter.response) * gmap string float :=
  match events with
  | [] => ([], usageTracker)
  | Request email :: events =>
    let '(r, usageTracker) := UsageLimiter.checkLimit email usageTracker in
    let '(log, usageTracker) := serve events usageTracker in
    ((email, r) :: log, usageTracker)
  | LoggedIn email :: events => serve events (UsageLimiter.login email usageTracker)
  end.

Definition is_next (r : UsageLimiter.response) : bool :=
  match r with
  | UsageLimiter.Next => true
  | UsageLimiter.Json _ _ _ | UsageLimiter.Thrown _ => false
  end.

(** The number of requests of [email] that were let through. *)
Definition allowed (email : string) (log : list (string * UsageLimiter.response)) : nat :=
  length (filter (fun er => String.eqb er.1 email && is_next er.2 = true) log).

(** The strings a pattern matches. *)
Inductive matches : RegExp.t -> string -> Prop :=
| matches_empty : matches RegExp.Empty EmptyString
| matches_class p c : p c = true -> matches (RegExp.Class p) (String c EmptyString)
| matches_alt_l r1 r2 s : matches r1 s -> matches (RegExp.Alt r1 r2) s
| matches_alt_r r1 r2 s : matches r2 s -> matches (RegExp.Alt r1 r2) s
| matches_seq r1 r2 s1 s2 :
    matches r1 s1 -> matches r2 s2 -> matches (RegExp.Seq r1 r2) (s1 +:+ s2)
| matches_star_nil r : matches (RegExp.Star r) EmptyString
| matches_star_more r s1 s2 :
    matches r s1 -> matches (RegExp.Star r) s2 -> matches (RegExp.Star r) (s1 +:+ s2).

(** Every character of the string is in the class. *)
Fixpoint all_chars (p : ascii -> bool) (s : string) : bool :=
  match s with
  | EmptyString => true
  | String c s' => p c && all_chars p s'
  end.

(** A part of an address the pattern accepts: not empty, without white
    space and without "@". *)
Definition address_part (s : string) : Prop :=
  s <> EmptyString /\ all_chars Server.not_space_at s = true.

(** The requests an identity with the stored value [o] can still have let
    through. *)
Definition credit (o : option float) : nat :=
  match o with
  | None => 3
  | Some x =>
    if (x =? 1)%float then 2
    else if (x =? 2)%float then 1
    else if (x =? 3)%float then 0
    else 3
  end.

(** The characters of an encoded URI component. *)
Definition encoded_char (c : ascii) : bool :=
  JSString.uri_unreserved c || Ascii.eqb c "%".

(** * Properties *)

(** ** The built-ins on sample inputs *)

Example ceil_examples :
  List.map Number.ceil [63.712; 7.92; 19.36; -0.5; 3; -2.5; 0; Number.NaN]%float
  = [64; 8; 20; -0; 3; -2; 0; Number.NaN]%float.
Proof. vm_compute. reflexivity. Qed.

Example of_decimal_examples :
  [Number.of_decimal false 2896 (-2); Number.of_decimal false 154 (-2);
   Number.of_decimal false 1 (-1); Number.of_decimal true 5 (-324);
   Number.of_decimal false 17976931348623157 292; Number.of_decimal false 2 308;
   Number.of_decimal false 9007199254740993 0]
  = [28.96; 1.54; 0.1; -0x1p-1074; 0x1.fffffffffffffp+1023; infinity;
     9007199254740992]%float.
Proof. vm_compute. reflexivity. Qed.

Example split_examples :
  [JSString.split ":" "1:2:4"; JSString.split ":" ""; JSString.split ":" "a::b:";
   JSString.split "x" "360x180x180"]
  = [["1"; "2"; "4"]; [""]; ["a"; ""; "b"; ""]; ["360"; "180"; "180"]]%string.
Proof. reflexivity. Qed.

Example parseFloat_examples :
  List.map JSString.parseFloat
    ["1"; "2.5"; " 4x"; "x"; ""; "undefined"; "-0"; ".5"; "5."; "1e3"; "1e";
     "28.96"; "-Infinity"; "."; "1.5e-7abc"; "0x10"]%string
  = [1; 2.5; 4; Number.NaN; Number.NaN; Number.NaN; -0; 0.5; 5; 1000; 1;
     28.96; neg_infinity; Number.NaN; 1.5e-7; 0]%float.
Proof. vm_compute. reflexivity. Qed.

Example parseInt_examples :
  List.map JSString.parseInt
    ["360"; "180.7"; " -12px"; "x"; ""; "0x1F"; "-0"; "1e3"]%string
  = [360; 180; -12; Number.NaN; Number.NaN; 31; -0; 1]%float.
Proof. vm_compute. reflexivity. Qed.

Example of_number_examples :
  List.map JSString.of_number
    [64; 44800; 0.1 + 0.2; 1e21; 1e-7; 123456789012345680000; 0.000001234;
     -2.5; Number.NaN; -0; infinity; 5e-324; 1.7976931348623157e308; 100;
     0.30000000000000004; 9007199254740993; 1.5e300; 13.157894736842104]%float
  = ["64"; "44800"; "0.30000000000000004"; "1e+21"; "1e-7";
     "123456789012345680000"; "0.000001234"; "-2.5"; "NaN"; "0"; "Infinity";
     "5e-324"; "1.7976931348623157e+308"; "100"; "0.30000000000000004";
     "9007199254740992"; "1.5e+300"; "13.157894736842104"]%string.
Proof. vm_compute. reflexivity. Qed.

Example encodeURIComponent_examples :
  List.map JSString.encodeURIComponent ["guest"; "a@b.co"; "__proto__"; "x y&z"]%string
  = List.map Normal ["guest"; "a%40b.co"; "__proto__"; "x%20y%26z"]%string.
Proof. reflexivity. Qed.

(** U+00E9 and U+1F600 are encoded byte by byte; the unpaired surrogate
    U+D800 makes the call throw, also in the middle of a string. *)
Example encodeURIComponent_bytes :
  List.map (fun bytes => JSString.encodeURIComponent
                           (string_of_list_ascii (List.map ascii_of_nat bytes)))
    [[195; 169]; [240; 159; 152; 128]; [237; 160; 128];
     [97; 237; 191; 191; 98]; [237; 159; 191]]%nat
  = [Normal "%C3%A9"; Normal "%F0%9F%98%80"; Throw (URIError "URI malformed");
     Throw (URIError "URI malformed"); Normal "%ED%9F%BF"]%string.
Proof. reflexivity. Qed.

(** ** Facts about binary64 arithmetic used below *)

Section NumberFacts.

Lemma Prim2SF_nan : Prim2SF nan = S754_nan.
Proof. reflexivity. Qed.

Lemma Prim2SF_zero : Prim2SF 0 = S754_zero false.
Proof. reflexivity. Qed.

Lemma eq_nan (x : float) : Prim2SF x = S754_nan -> x = nan.
Proof. intros H. apply Prim2SF_inj. rewrite H. reflexivity. Qed.

Lemma add_nan_l (y : float) : (nan + y)%float = nan.
Proof. apply eq_nan. rewrite add_spec, Prim2SF_nan. reflexivity. Qed.

Lemma add_nan_r (x : float) : (x + nan)%float = nan.
Proof.
  apply eq_nan. rewrite add_spec, Prim2SF_nan.
  destruct (Prim2SF x); reflexivity.
Qed.

Lemma mul_nan_l (y : float) : (nan * y)%float = nan.
Proof. apply eq_nan. rewrite mul_spec, Prim2SF_nan. reflexivity. Qed.

Lemma div_nan_r (x : float) : (x / nan)%float = nan.
Proof.
  apply eq_nan. rewrite div_spec, Prim2SF_nan.
  destruct (Prim2SF x); reflexivity.
Qed.

Lemma div_nan_l (y : float) : (nan / y)%float = nan.
Proof. apply eq_nan. rewrite div_spec, Prim2SF_nan. reflexivity. Qed.

Lemma ceil_nan : Number.ceil nan = nan.
Proof. reflexivity. Qed.

(** A number that is greater than zero is not [== 0]. *)
Lemma ltb_zero_neq (x : float) : (0 <? x)%float = true -> Number.neq x 0 = true.
Proof.
  unfold Number.neq. intros H.
  rewrite FloatAxioms.ltb_spec, Prim2SF_zero in H.
  rewrite FloatAxioms.eqb_spec, Prim2SF_zero.
  revert H.
  destruct (Prim2SF x) as [s|s| |s m e]; try destruct s; cbn; congruence.
Qed.

(** The Number value for a natural number is the one [of_Z] gives. *)
Lemma of_ratio_nonneg (z : Z) : 0 <= z -> Number.of_ratio false z 1 = Number.of_Z z.
Proof.
  intros Hz. unfold Number.of_Z.
  replace (z <? 0) with false by (symmetry; apply Z.ltb_ge; exact Hz).
  rewrite Z.abs_eq by exact Hz. reflexivity.
Qed.

End NumberFacts.

(** ** Symbolic execution of the [Mixes] methods *)

Section MixesFacts.

Import Mixes.

Variables (c : t) (l : list Aggregates.t).

Lemma getRatio_Undefined :
  ratio c = Undefined ->
  getRatio (Heap c l)
  = (Throw (TypeError "Cannot read properties of undefined (reading 'split')"),
     Heap c l).
Proof. intros H. unfold getRatio, gets, mbind, M_bind. cbn. rewrite H. reflexivity. Qed.

Lemma getRatio_Str (r : string) :
  ratio c = Str r ->
  getRatio (Heap c l) = (Normal (JSString.split ":" r), Heap c l).
Proof. intros H. unfold getRatio, gets, mbind, M_bind. cbn. rewrite H. reflexivity. Qed.

Lemma getAggregate_Str (r : string) (index : nat) :
  ratio c = Str r ->
  getAggregate index (Heap c l)
  = (Normal (part (JSString.split ":" r) index), Heap c l).
Proof.
  intros H. unfold getAggregate, mbind, M_bind.
  rewrite (getRatio_Str r H). reflexivity.
Qed.

Lemma getSum_Str (r : string) :
  ratio c = Str r ->
  getSum (Heap c l)
  = (Normal (sum_of (hasBallast c) (JSString.split ":" r)), Heap c l).
Proof.
  intros H. unfold getSum, gets, mbind, M_bind, sum_of. cbn.
  destruct (hasBallast c); cbn; rewrite !(getAggregate_Str r _ H); reflexivity.
Qed.

Lemma getSum_Undefined :
  ratio c = Undefined ->
  getSum (Heap c l)
  = (Throw (TypeError "Cannot read properties of undefined (reading 'split')"),
     Heap c l).
Proof.
  intros H. unfold getSum, getAggregate, gets, mbind, M_bind. cbn.
  destruct (hasBallast c); cbn; rewrite (getRatio_Undefined H); reflexivity.
Qed.

Lemma getQuantity_Undefined (index : nat) :
  ratio c = Undefined ->
  getQuantity index (Heap c l)
  = (Throw (TypeError "Cannot read properties of undefined (reading 'split')"),
     Heap c l).
Proof.
  intros H. unfold getQuantity, mbind, M_bind.
  rewrite (getSum_Undefined H). reflexivity.
Qed.

Lemma getRatio_Object (text : string) :
  ratio c = Object text ->
  getRatio (Heap c l)
  = (Throw (TypeError "ratio.split is not a function"), Heap c l).
Proof. intros H. unfold getRatio, gets, mbind, M_bind. cbn. rewrite H. reflexivity. Qed.

Lemma getSum_Object (text : string) :
  ratio c = Object text ->
  getSum (Heap c l)
  = (Throw (TypeError "ratio.split is not a function"), Heap c l).
Proof.
  intros H. unfold getSum, getAggregate, gets, mbind, M_bind. cbn.
  destruct (hasBallast c); cbn; rewrite (getRatio_Object text H); reflexivity.
Qed.

Lemma getQuantity_Object (text : string) (index : nat) :
  ratio c = Object text ->
  getQuantity index (Heap c l)
  = (Throw (TypeError "ratio.split is not a function"), Heap c l).
Proof.
  intros H. unfold getQuantity, mbind, M_bind.
  rewrite (getSum_Object text H). reflexivity.
Qed.

Lemma getQuantity_Str (r : string) (index : nat) :
  ratio c = Str r ->
  getQuantity index (Heap c l)
  = match l !! index with
    | Some material =>
      let material :=
        Aggregates.set_quantity
          (quantity_of c (JSString.split ":" r) index (Aggregates.factor material))
          material in
      (Normal (Aggregates.describe material), Heap c (<[index := material]> l))
    | None =>
      (Throw (TypeError "Cannot read properties of undefined (reading 'factor')"),
       Heap c l)
    end.
Proof.
  intros H. unfold getQuantity, mbind, M_bind.
  rewrite (getSum_Str r H), (getAggregate_Str r index H).
  unfold gets, modify, throw, mret, M_ret. cbn.
  destruct (l !! index); reflexivity.
Qed.

End MixesFacts.

Arguments JSString.parseFloat : simpl never.
Arguments JSString.parseInt : simpl never.
Arguments JSString.of_number : simpl never.
Arguments Number.ceil : simpl never.
Arguments constants : simpl never.
Arguments digit_value : simpl never.

(** ** The catalog constants are never written *)

Section Frame.

Import Mixes.

Lemma constants_set_quantity (q : float) (a : Aggregates.t) :
  constants (Aggregates.set_quantity q a) = constants a.
Proof. reflexivity. Qed.

Lemma constants_insert (l : list Aggregates.t) (i : nat) (a a' : Aggregates.t) :
  l !! i = Some a -> constants a' = constants a ->
  constants <$> <[i := a']> l = constants <$> l.
Proof.
  intros Hl Ha. rewrite list_fmap_insert, Ha.
  apply list_insert_id. rewrite list_lookup_fmap, Hl. reflexivity.
Qed.

(** [describe()] after the assignment reads the new quantity and the
    constants only. *)
Lemma describe_set_quantity (q : float) (a b : Aggregates.t) :
  constants a = constants b ->
  Aggregates.describe (Aggregates.set_quantity q a)
  = Aggregates.describe (Aggregates.set_quantity q b).
Proof.
  destruct a as [[na qa ua pa] fa], b as [[nb qb ub pb] fb].
  unfold constants. cbn. intros [= -> -> -> ->]. reflexivity.
Qed.

(** What one call of [getQuantity] can do to the heap. *)
Lemma getQuantity_heap (index : nat) (h : heap) :
  this (getQuantity index h).2 = this h
  /\ constants <$> materialList (getQuantity index h).2 = constants <$> materialList h
  /\ forall j, j <> index ->
       materialList (getQuantity index h).2 !! j = materialList h !! j.
Proof.
  destruct h as [c l]. destruct (ratio c) as [|r|o] eqn:Hr.
  - rewrite (getQuantity_Undefined c l index Hr). cbn. auto.
  - rewrite (getQuantity_Str c l r index Hr).
    destruct (l !! index) as [m|] eqn:Hm; cbn; [|auto].
    split; [reflexivity|]. split.
    + apply (constants_insert l index m); [exact Hm | apply constants_set_quantity].
    + intros j Hj. apply list_lookup_insert_ne. congruence.
  - rewrite (getQuantity_Object c l o index Hr). cbn. auto.
Qed.

(** The outcome of [getQuantity] is a function of the calculator and of
    the constants of the materials. *)
Lemma getQuantity_outcome (index : nat) (c : t) (l1 l2 : list Aggregates.t) :
  constants <$> l1 = constants <$> l2 ->
  (getQuantity index (Heap c l1)).1 = (getQuantity index (Heap c l2)).1.
Proof.
  intros Hl.
  assert (Hi : constants <$> l1 !! index = constants <$> l2 !! index)
    by (rewrite <- !list_lookup_fmap, Hl; reflexivity).
  destruct (ratio c) as [|r|o] eqn:Hr.
  - rewrite !(getQuantity_Undefined c _ index Hr). reflexivity.
  - rewrite !(getQuantity_Str c _ r index Hr).
    destruct (l1 !! index) as [m1|], (l2 !! index) as [m2|]; cbn in Hi |- *;
      try discriminate; [|reflexivity].
    assert (Hc : constants m1 = constants m2) by congruence.
    assert (Hf : Aggregates.factor m1 = Aggregates.factor m2)
      by (unfold constants in Hc; congruence).
    rewrite Hf, (describe_set_quantity _ m1 m2 Hc). reflexivity.
  - rewrite !(getQuantity_Object c _ o index Hr). reflexivity.
Qed.

(** [getQuantity] leaves a heap of the same calculator. *)
Lemma getQuantity_shape (index : nat) (c : t) (l : list Aggregates.t) :
  exists o l', getQuantity index (Heap c l) = (o, Heap c l')
               /\ constants <$> l' = constants <$> l.
Proof.
  destruct (getQuantity_heap index (Heap c l)) as (Ht & Hc & _).
  destruct (getQuantity index (Heap c l)) as [o [c' l']]. cbn in *. subst c'.
  eauto.
Qed.

Lemma getCost_outcome (c : t) (l1 l2 : list Aggregates.t) :
  constants <$> l1 = constants <$> l2 ->
  (Concrete.run l1 c).1 = (Concrete.run l2 c).1.
Proof.
  intros H0. unfold Concrete.run, Concrete.getCost, mbind, M_bind.
  pose proof (getQuantity_outcome 0 c l1 l2 H0) as E.
  destruct (getQuantity_shape 0 c l1) as (o1 & k1 & Q1 & C1).
  destruct (getQuantity_shape 0 c l2) as (o2 & k2 & Q2 & C2).
  rewrite Q1, Q2 in E |- *. cbn in E. subst o2. clear Q1 Q2.
  destruct o1 as [r0|e]; [|reflexivity].
  assert (H1 : constants <$> k1 = constants <$> k2) by congruence.
  pose proof (getQuantity_outcome 1 c k1 k2 H1) as E.
  destruct (getQuantity_shape 1 c k1) as (o1 & k1' & Q1 & C1').
  destruct (getQuantity_shape 1 c k2) as (o2 & k2' & Q2 & C2').
  rewrite Q1, Q2 in E |- *. cbn in E. subst o2. clear Q1 Q2.
  destruct o1 as [r1|e]; [|reflexivity].
  assert (H2 : constants <$> k1' = constants <$> k2') by congruence.
  pose proof (getQuantity_outcome 2 c k1' k2' H2) as E.
  destruct (getQuantity_shape 2 c k1') as (o1 & k1'' & Q1 & _).
  destruct (getQuantity_shape 2 c k2') as (o2 & k2'' & Q2 & _).
  rewrite Q1, Q2 in E |- *. cbn in E. subst o2.
  destruct o1 as [r2|e]; reflexivity.
Qed.

Lemma getCost_constants (c : t) (l : list Aggregates.t) :
  constants <$> materialList (Concrete.run l c).2 = constants <$> l.
Proof.
  unfold Concrete.run, Concrete.getCost, mbind, M_bind.
  destruct (getQuantity_shape 0 c l) as (o0 & k0 & -> & C0).
  destruct o0 as [r0|e]; [|exact C0].
  destruct (getQuantity_shape 1 c k0) as (o1 & k1 & -> & C1).
  destruct o1 as [r1|e]; [|cbn; congruence].
  destruct (getQuantity_shape 2 c k1) as (o2 & k2 & -> & C2).
  destruct o2 as [r2|e]; cbn; congruence.
Qed.

End Frame.

(** ** The mix calculator *)

Section MixCalculator.

Import Mixes.

(** C1. For a mix with a valid ratio string and a component index [i] the
    mix covers (0 and 1 without ballast; 0, 1 and 2 with ballast),
    [getQuantity(i)] completes normally and assigns to the [i]-th material
    the quantity
    [ceil((ratioPart_i / sum) * (volume * factor) * materialFactor_i)],
    where [sum] is the sum of the two or three ratio parts and
    [materialFactor_i] is the factor of the [i]-th material of the list
    (cement, sand, ballast).  The arithmetic is that of the code: binary64,
    evaluated from left to right. *)
Theorem getQuantity_formula (c : t) (r : string) (l : list Aggregates.t)
    (i : nat) (material : Aggregates.t) :
  ratio c = Str r ->
  valid_ratio (hasBallast c) r ->
  (i < components (hasBallast c))%nat ->
  l !! i = Some material ->
  let ratioPart := default Number.NaN (ratio_parts r !! i) in
  let sum := sum_parts (ratio_parts r) in
  let material' :=
    Aggregates.set_quantity
      (Number.ceil (ratioPart / sum * (volume c * factor c)
                    * Aggregates.factor material)%float) material in
  getQuantity i (Heap c l)
  = (Normal (Aggregates.describe material'), Heap c (<[i := material']> l)).
Proof.
  intros Hr [Hlen _] Hi Hl. cbv zeta.
  rewrite (getQuantity_Str c l r i Hr), Hl. cbv zeta.
  unfold quantity_of, sum_of, part, JSString.element, ratio_parts in *.
  rewrite length_fmap in Hlen.
  destruct (hasBallast c); cbn in Hlen, Hi.
  - destruct (JSString.split ":" r) as [|p0 [|p1 [|p2 [|]]]]; try discriminate.
    destruct i as [|[|[|]]]; [reflexivity .. | lia].
  - destruct (JSString.split ":" r) as [|p0 [|p1 [|]]]; try discriminate.
    destruct i as [|[|]]; [reflexivity .. | lia].
Qed.

Lemma getQuantity_formula_witness :
  getQuantity 0 (Heap (new 10 1.54 (Str "1:2:4") true) initial_materialList)
  = (Normal (Some "cement...64...bags...700...44800"%string),
     Heap (new 10 1.54 (Str "1:2:4") true)
          [Aggregates.Cement 64 700 28.96; Aggregates.sand; Aggregates.ballast]).
Proof.
  rewrite (getQuantity_formula (new 10 1.54 (Str "1:2:4") true) "1:2:4"
             initial_materialList 0 Aggregates.cement).
  - vm_compute. reflexivity.
  - reflexivity.
  - split; [reflexivity | repeat constructor].
  - cbn. lia.
  - reflexivity.
Defined.

(** C2. The concrete mix with volume 10, ratio "1:2:4", factor 1.54 and
    ballast, computed against the catalog cement (factor 28.96, bags), sand
    (factor 1.8, tons) and ballast (factor 2.2, tons), gives exactly 64 bags
    of cement, 8 tons of sand and 20 tons of ballast. *)
Theorem getCost_example :
  constants <$> initial_materialList
  = [("cement", "bags", 700, 28.96); ("sand", "tons", 1350, 1.8);
     ("ballast", "tons", 2500, 2.2)]%string%float
  /\ (Concrete.run initial_materialList (new 10 1.54 (Str "1:2:4") true)).1
     = Normal [Some "cement...64...bags...700...44800";
               Some "sand...8...tons...1350...10800";
               Some "ballast...20...tons...2500...50000"]%string
  /\ (fun a => (Material.name (Aggregates.base a), Aggregates.quantity a,
                Material.unit (Aggregates.base a)))
     <$> materialList
           (Concrete.run initial_materialList (new 10 1.54 (Str "1:2:4") true)).2
     = [("cement", 64, "bags"); ("sand", 8, "tons"); ("ballast", 20, "tons")]%string%float.
Proof. vm_compute. repeat split. Qed.

(** C7. Two runs of [getCost] on calculators built from the same inputs
    give the same result list: the outcome depends on the inputs and on the
    constants of the materials only, not on the quantities found in the
    material list; in particular a second run, which finds the quantities
    the first one left, repeats the first outcome. *)
Theorem getCost_repeatable (c : t) (l1 l2 : list Aggregates.t) :
  constants <$> l1 = constants <$> l2 ->
  (Concrete.run l1 c).1 = (Concrete.run l2 c).1
  /\ (Concrete.run (materialList (Concrete.run l1 c).2) c).1 = (Concrete.run l1 c).1.
Proof.
  intros H. split.
  - apply getCost_outcome, H.
  - apply getCost_outcome, getCost_constants.
Qed.

Lemma getCost_repeatable_witness :
  let c := new 10 1.54 (Str "1:2:4") true in
  let used := [Aggregates.Cement 7 700 28.96; Aggregates.Sand 0 1350 1.8;
               Aggregates.Ballast 99 2500 2.2] in
  (Concrete.run initial_materialList c).1 = (Concrete.run used c).1
  /\ (Concrete.run (materialList (Concrete.run initial_materialList c).2) c).1
     = (Concrete.run initial_materialList c).1.
Proof.
  intros c used. apply (getCost_repeatable c initial_materialList used).
  reflexivity.
Defined.

(** C8. A call of [getQuantity(i)] writes the quantity of the [i]-th
    material and nothing else: the calculator's fields (volume, factor,
    ratio, hasBallast) are as before, every material keeps its name, unit,
    price and factor, and every material other than the [i]-th is as
    before. *)
Theorem getQuantity_frame (i : nat) (h : heap) :
  let h' := (getQuantity i h).2 in
  this h' = this h
  /\ length (materialList h') = length (materialList h)
  /\ (forall j m, materialList h !! j = Some m ->
        exists m', materialList h' !! j = Some m'
          /\ Material.name (Aggregates.base m') = Material.name (Aggregates.base m)
          /\ Material.unit (Aggregates.base m') = Material.unit (Aggregates.base m)
          /\ Material.price (Aggregates.base m') = Material.price (Aggregates.base m)
          /\ Aggregates.factor m' = Aggregates.factor m
          /\ (j <> i -> m' = m)).
Proof.
  cbv zeta. destruct (getQuantity_heap i h) as (Ht & Hc & Hj).
  split; [exact Ht|]. split.
  - rewrite <- (length_fmap constants), Hc. apply length_fmap.
  - intros j m Hm.
    assert (E : (constants <$> materialList (getQuantity i h).2) !! j
                = Some (constants m))
      by (rewrite Hc, list_lookup_fmap, Hm; reflexivity).
    rewrite list_lookup_fmap in E.
    destruct (materialList (getQuantity i h).2 !! j) as [m'|] eqn:Hm';
      [|discriminate].
    exists m'. split; [reflexivity|].
    assert (Hcm : constants m' = constants m) by (cbn in E; congruence).
    unfold constants in Hcm. injection Hcm as -> -> -> ->.
    repeat split. intros Hne. rewrite (Hj j Hne) in Hm'. congruence.
Qed.

Lemma getQuantity_frame_witness :
  let h := Heap (new 10 1.54 (Str "1:2:4") true) initial_materialList in
  this (getQuantity 1 h).2 = this h
  /\ constants <$> materialList (getQuantity 1 h).2 = constants <$> materialList h
  /\ materialList (getQuantity 1 h).2 !! 0%nat = Some Aggregates.cement.
Proof.
  intros h.
  destruct (getQuantity_frame 1 h) as (Ht & _ & Hm).
  destruct (Hm 0%nat Aggregates.cement eq_refl) as (m' & Hm' & _ & _ & _ & _ & Hne).
  split; [exact Ht|]. split; [vm_compute; reflexivity|].
  rewrite Hm'. f_equal. apply Hne. discriminate.
Defined.

(** C10. Without ballast [getSum] adds the first two parts of the ratio and
    nothing else: whatever follows the second part (so for every ratio with
    three or more parts), the sum is [a + b], the shares at indices 0 and 1
    are computed with the denominator [a + b], and the computation
    completes normally rather than being rejected. *)
Theorem getSum_first_two_parts (c : t) (r a b : string) (rest : list string)
    (l : list Aggregates.t) :
  hasBallast c = false ->
  ratio c = Str r ->
  JSString.split ":" r = a :: b :: rest ->
  let sum := (JSString.parseFloat a + JSString.parseFloat b)%float in
  getSum (Heap c l) = (Normal sum, Heap c l)
  /\ forall i p material,
       [a; b] !! i = Some p -> l !! i = Some material ->
       let material' :=
         Aggregates.set_quantity
           (Number.ceil (JSString.parseFloat p / sum * (volume c * factor c)
                         * Aggregates.factor material)%float) material in
       getQuantity i (Heap c l)
       = (Normal (Aggregates.describe material'), Heap c (<[i := material']> l)).
Proof.
  intros Hb Hr Hs. cbv zeta. split.
  - rewrite (getSum_Str c l r Hr), Hb, Hs. reflexivity.
  - intros i p material Hp Hl.
    rewrite (getQuantity_Str c l r i Hr), Hl, Hs. cbv zeta.
    unfold quantity_of, sum_of, part, JSString.element. rewrite Hb.
    destruct i as [|[|]]; cbn in Hp; try discriminate;
      injection Hp as <-; reflexivity.
Qed.

Lemma getSum_first_two_parts_witness :
  getSum (Heap (new 10 1.54 (Str "1:2:4") false) initial_materialList)
  = (Normal 3%float, Heap (new 10 1.54 (Str "1:2:4") false) initial_materialList).
Proof.
  exact (proj1 (getSum_first_two_parts (new 10 1.54 (Str "1:2:4") false)
                  "1:2:4" "1" "2" ["4"%string] initial_materialList
                  eq_refl eq_refl eq_refl)).
Defined.

End MixCalculator.

(** ** The calculator performs no validation *)

Section NoValidation.

Import Mixes.

Lemma is_nan_eq (x : float) : is_nan x = true -> x = nan.
Proof.
  unfold is_nan. rewrite FloatAxioms.eqb_spec. intros H. apply eq_nan.
  destruct (Prim2SF x) as [s|s| |s m e]; try reflexivity; exfalso; revert H;
    unfold SFeqb, SFcompare; try (destruct s; discriminate).
  rewrite Z.compare_refl, Pos.compare_cont_refl. destruct s; discriminate.
Qed.

(** An index past the end of the split ratio reads as [NaN]. *)
Lemma part_ratio_parts (r : string) (i : nat) :
  part (JSString.split ":" r) i = default Number.NaN (ratio_parts r !! i).
Proof.
  unfold part, JSString.element, ratio_parts. rewrite list_lookup_fmap.
  destruct (JSString.split ":" r !! i); reflexivity.
Qed.

Lemma sum_of_nan (hasBallast : bool) (parts : list string) (i : nat) :
  (i < components hasBallast)%nat -> part parts i = nan ->
  sum_of hasBallast parts = nan.
Proof.
  unfold sum_of, components. intros Hi Hp.
  destruct hasBallast.
  - destruct i as [|[|[|]]]; [..|lia]; rewrite Hp;
      repeat (rewrite add_nan_l || rewrite add_nan_r); reflexivity.
  - destruct i as [|[|]]; [..|lia]; rewrite Hp;
      repeat (rewrite add_nan_l || rewrite add_nan_r); reflexivity.
Qed.

Lemma quantity_of_nan (c : t) (parts : list string) (i : nat) (f : float) :
  sum_of (hasBallast c) parts = nan -> quantity_of c parts i f = nan.
Proof.
  unfold quantity_of. intros ->.
  rewrite div_nan_r, !mul_nan_l. reflexivity.
Qed.

Lemma describe_nan (a : Aggregates.t) :
  Aggregates.describe (Aggregates.set_quantity nan a) = Some (NaN_description a).
Proof.
  destruct a as [[n q u p] f].
  unfold Aggregates.describe, Aggregates.set_quantity, Material.describe,
    Material.cost, NaN_description. cbn.
  rewrite mul_nan_l. reflexivity.
Qed.

(** [getCost] on a list of three materials, for a ratio that is a string. *)
Lemma getCost_Str (c : t) (r : string) (m0 m1 m2 : Aggregates.t) :
  ratio c = Str r ->
  let q i m :=
    Aggregates.set_quantity
      (quantity_of c (JSString.split ":" r) i (Aggregates.factor m)) m in
  Concrete.run [m0; m1; m2] c
  = (Normal [Aggregates.describe (q 0%nat m0); Aggregates.describe (q 1%nat m1);
             Aggregates.describe (q 2%nat m2)],
     Heap c [q 0%nat m0; q 1%nat m1; q 2%nat m2]).
Proof.
  intros Hr. cbv zeta. unfold Concrete.run, Concrete.getCost, mbind, M_bind.
  rewrite (getQuantity_Str c _ r 0 Hr). cbn [lookup list_lookup].
  cbv zeta. cbn [insert list_insert].
  rewrite (getQuantity_Str c _ r 1 Hr). cbn [lookup list_lookup].
  cbv zeta. cbn [insert list_insert].
  rewrite (getQuantity_Str c _ r 2 Hr). cbn [lookup list_lookup].
  cbv zeta. cbn [insert list_insert].
  reflexivity.
Qed.

(** C3, as the code has it.  The mix computation validates nothing: for
    every ratio string, every volume (positive or not), every factor and
    either value of hasBallast, [getCost] raises no error and returns three
    results.  When a ratio part that enters the sum is not read as a number
    (a part such as "x", or a third part that is missing although
    hasBallast is true), every quantity assigned is [NaN] and every result
    is the description [name...NaN...unit...price...NaN]. *)
Theorem getCost_no_validation (c : t) (r : string) (m0 m1 m2 : Aggregates.t) :
  ratio c = Str r ->
  ~ rejected (Concrete.run [m0; m1; m2] c).1
  /\ (exists r0 r1 r2, (Concrete.run [m0; m1; m2] c).1 = Normal [r0; r1; r2])
  /\ ((exists i, (i < components (hasBallast c))%nat
                 /\ is_nan (default Number.NaN (ratio_parts r !! i)) = true) ->
      (Concrete.run [m0; m1; m2] c).1
      = Normal [Some (NaN_description m0); Some (NaN_description m1);
                Some (NaN_description m2)]
      /\ Aggregates.quantity <$> materialList (Concrete.run [m0; m1; m2] c).2
         = [Number.NaN; Number.NaN; Number.NaN]).
Proof.
  intros Hr. rewrite (getCost_Str c r m0 m1 m2 Hr). cbv zeta. cbn [fst snd].
  split; [intros [e He]; discriminate|].
  split; [eauto|].
  intros (i & Hi & Hnan).
  rewrite <- part_ratio_parts in Hnan. apply is_nan_eq in Hnan.
  pose proof (sum_of_nan _ _ i Hi Hnan) as Hsum.
  rewrite !(quantity_of_nan c _ _ _ Hsum), !describe_nan.
  split; reflexivity.
Qed.

Lemma getCost_no_validation_witness :
  (Concrete.run initial_materialList (new 10 1.54 (Str "1:x:4") true)).1
  = Normal [Some "cement...NaN...bags...700...NaN";
            Some "sand...NaN...tons...1350...NaN";
            Some "ballast...NaN...tons...2500...NaN"]%string.
Proof.
  destruct (getCost_no_validation (new 10 1.54 (Str "1:x:4") true) "1:x:4"
              Aggregates.cement Aggregates.sand Aggregates.ballast eq_refl)
    as (_ & _ & H).
  destruct H as [H _].
  - exists 1%nat. split; [cbn; lia | vm_compute; reflexivity].
  - unfold initial_materialList. rewrite H. vm_compute. reflexivity.
Defined.

(** C3 as stated fails: the ratio "1:x:4", the volume -10 and the two-part
    ratio "1:2" of a mix with ballast are not rejected; the computation
    runs and puts [NaN], or negative quantities, into the output. *)
Lemma validation_counterexample :
  ~ rejected (Concrete.run initial_materialList (new 10 1.54 (Str "1:x:4") true)).1
  /\ (Concrete.run initial_materialList (new 10 1.54 (Str "1:x:4") true)).1
     = Normal [Some "cement...NaN...bags...700...NaN";
               Some "sand...NaN...tons...1350...NaN";
               Some "ballast...NaN...tons...2500...NaN"]%string
  /\ (Concrete.run initial_materialList (new (-10) 1.54 (Str "1:2:4") true)).1
     = Normal [Some "cement...-63...bags...700...-44100";
               Some "sand...-7...tons...1350...-9450";
               Some "ballast...-19...tons...2500...-47500"]%string
  /\ (Concrete.run initial_materialList (new 10 1.54 (Str "1:2") true)).1
     = Normal [Some "cement...NaN...bags...700...NaN";
               Some "sand...NaN...tons...1350...NaN";
               Some "ballast...NaN...tons...2500...NaN"]%string.
Proof.
  split.
  - intros [e He]. vm_compute in He. discriminate.
  - vm_compute. repeat split.
Qed.

End NoValidation.

(** ** Materials and blocks *)

Section Materials.

Local Open Scope string_scope.

(** C5. [describe()] returns nothing ([undefined]) exactly when the
    quantity [== 0]; for a quantity greater than zero it returns the string
    made of the name, the quantity, the unit, the price and the product
    quantity * price, in this order, each two separated by "...". *)
Theorem describe_spec (m : Material.t) :
  (Material.describe m = None <-> (Material.quantity m =? 0)%float = true)
  /\ ((0 <? Material.quantity m)%float = true ->
      Material.describe m
      = Some (Material.name m +:+ "..."
              +:+ JSString.of_number (Material.quantity m) +:+ "..."
              +:+ Material.unit m +:+ "..."
              +:+ JSString.of_number (Material.price m) +:+ "..."
              +:+ JSString.of_number (Material.quantity m * Material.price m)%float)).
Proof.
  unfold Material.describe, Material.cost, Number.neq. split.
  - destruct (Material.quantity m =? 0)%float; cbn; split; congruence.
  - intros H. apply ltb_zero_neq in H. unfold Number.neq in H.
    rewrite H. reflexivity.
Qed.

Lemma describe_spec_witness :
  Material.describe (Material.new "cement" 64 "bags" 700)
  = Some "cement...64...bags...700...44800".
Proof.
  rewrite (proj2 (describe_spec (Material.new "cement" 64 "bags" 700)));
    [vm_compute; reflexivity | reflexivity].
Defined.

(** Digits are neither white space, signs nor the letter x, and
    [scan_digits] reads them with their value. *)
Lemma digit_value_char (c : ascii) (d : Z) :
  digit_value c = Some d ->
  JSString.digit_of 10 c = Some d /\ 0 <= d
  /\ JSString.is_white_space c = false
  /\ Ascii.eqb c "x" = false
  /\ c <> "-"%char /\ c <> "+"%char /\ c <> "x"%char /\ c <> "X"%char.
Proof.
  unfold digit_value.
  destruct c as [[] [] [] [] [] [] [] []]; cbn; try discriminate;
    intros [= <-]; repeat split; (discriminate || lia).
Qed.

Lemma numeral_nonneg (s : string) (acc z : Z) :
  0 <= acc -> numeral s acc = Some z -> 0 <= z.
Proof.
  revert acc. induction s as [|c s IH]; cbn; intros acc Hacc H.
  - congruence.
  - destruct (digit_value c) as [d|] eqn:Hd; [|discriminate].
    apply digit_value_char in Hd as (_ & Hd & _).
    apply (IH (10 * acc + d)); [lia | exact H].
Qed.

Lemma scan_digits_numeral (s : string) (acc cnt z : Z) :
  numeral s acc = Some z ->
  JSString.scan_digits 10 s acc cnt
  = (z, cnt + Z.of_nat (String.length s), EmptyString).
Proof.
  revert acc cnt. induction s as [|c s IH]; cbn -[Z.of_nat]; intros acc cnt H.
  - injection H as ->. rewrite Z.add_0_r. reflexivity.
  - destruct (digit_value c) as [d|] eqn:Hd; [|discriminate].
    apply digit_value_char in Hd as (-> & _).
    rewrite (IH _ _ H). f_equal. f_equal. lia.
Qed.

(** [parseInt] reads a millimeter segment as the integer it denotes. *)
Lemma parseInt_millimeters (s : string) (z : Z) :
  millimeters s = Some z -> JSString.parseInt s = Number.of_Z z.
Proof.
  destruct s as [|c s]; [discriminate|]. intros H. cbn in H.
  pose proof (numeral_nonneg (String c s) 0 z (Z.le_refl 0) H) as Hz.
  pose proof (scan_digits_numeral (String c s) 0 0 z H) as Hscan.
  destruct (digit_value c) as [d|] eqn:Hd; [|discriminate].
  pose proof (digit_value_char c d Hd) as (_ & _ & Hw & _ & Hm & Hp & Hx & HX).
  unfold JSString.parseInt. cbn [JSString.trim_start]. rewrite Hw.
  assert (Hsign : JSString.scan_sign (String c s) = (false, String c s)).
  { unfold JSString.scan_sign.
    destruct c as [[] [] [] [] [] [] [] []]; try reflexivity; congruence. }
  rewrite Hsign.
  assert (Hradix :
    match String c s with
    | String "0" (String "x" s') => (16, s')
    | String "0" (String "X" s') => (16, s')
    | _ => (10, String c s)
    end = (10, String c s)).
  { destruct s as [|c' s]; [destruct c as [[] [] [] [] [] [] [] []]; reflexivity|].
    cbn in H.
    destruct (digit_value c') as [d'|] eqn:Hd'; [|discriminate].
    pose proof (digit_value_char c' d' Hd') as (_ & _ & _ & _ & _ & _ & Hx' & HX').
    destruct c as [[] [] [] [] [] [] [] []]; try reflexivity;
      destruct c' as [[] [] [] [] [] [] [] []]; try reflexivity; congruence. }
  rewrite Hradix, Hscan.
  replace (0 + Z.of_nat (String.length (String c s)) =? 0)%Z with false
    by (symmetry; apply Z.eqb_neq; cbn [String.length]; lia).
  apply of_ratio_nonneg, Hz.
Qed.

Lemma split_numeral (s : string) (acc z : Z) :
  numeral s acc = Some z -> JSString.split "x" s = [s].
Proof.
  revert acc. induction s as [|c s IH]; cbn; intros acc H; [reflexivity|].
  destruct (digit_value c) as [d|] eqn:Hd; [|discriminate].
  apply digit_value_char in Hd as (_ & _ & _ & -> & _).
  rewrite (IH _ H). reflexivity.
Qed.

Lemma split_numeral_app (s rest : string) (acc z : Z) :
  numeral s acc = Some z ->
  JSString.split "x" (s +:+ String "x" rest) = s :: JSString.split "x" rest.
Proof.
  revert acc. induction s as [|c s IH]; cbn; intros acc H; [reflexivity|].
  destruct (digit_value c) as [d|] eqn:Hd; [|discriminate].
  change (String c s +:+ String "x" rest) with (String c (s +:+ String "x" rest)).
  cbn [JSString.split].
  apply digit_value_char in Hd as (_ & _ & _ & -> & _).
  rewrite (IH _ H). reflexivity.
Qed.

Lemma millimeters_numeral (s : string) (z : Z) :
  millimeters s = Some z -> numeral s 0 = Some z.
Proof. destruct s; [discriminate | trivial]. Qed.




End Materials.

(** ** The usage limiter *)

Section Limiter.

Import UsageLimiter.

Ltac pick_count :=
  first [ reflexivity | left; reflexivity | right; pick_count ].

Lemma get_own (t : gmap string float) (email : string) (x : float) :
  email <> "__proto__"%string -> t !! email = Some x -> get t email = Num x.
Proof. intros He Hx. unfold get. rewrite decide_False by exact He. rewrite Hx. reflexivity. Qed.

Lemma get_fresh (t : gmap string float) (email : string) :
  email ∉ Object_prototype -> t !! email = None -> get t email = Undefined.
Proof.
  intros He Hx. unfold get.
  rewrite decide_False by (intros ->; apply He; unfold Object_prototype; set_solver).
  rewrite Hx. rewrite decide_False by exact He. reflexivity.
Qed.

Lemma set_own (t : gmap string float) (email : string) (x : float) :
  email <> "__proto__"%string -> set t email x = <[email := x]> t.
Proof. intros He. unfold set. rewrite decide_False by exact He. reflexivity. Qed.

Lemma not_prototype (email : string) :
  email ∉ Object_prototype -> email <> "__proto__"%string.
Proof. intros He ->. apply He. unfold Object_prototype. set_solver. Qed.

(** The number read back from the tracker is a stored count or [NaN]. *)
Lemma ToNumber_get (t : gmap string float) (email : string) :
  bounded t -> stored_count (ToNumber (get t email)).
Proof.
  intros Ht. unfold get.
  destruct (decide (email = "__proto__"%string)); [left; reflexivity|].
  destruct (t !! email) as [x|] eqn:Hx; [exact (Ht email x Hx)|].
  destruct (decide (email ∈ Object_prototype)); left; reflexivity.
Qed.

Lemma bounded_set (t : gmap string float) (email : string) (x : float) :
  bounded t -> stored_count x -> bounded (set t email x).
Proof.
  intros Ht Hx. unfold set.
  destruct (decide (email = "__proto__"%string)); [exact Ht|].
  intros e y. rewrite lookup_insert. case_decide.
  - intros [= <-]. exact Hx.
  - apply Ht.
Qed.

Lemma bounded_initialize (t : gmap string float) (email : string) :
  bounded t -> bounded (initialize email t).
Proof.
  intros Ht. unfold initialize.
  destruct (negb (ToBoolean (get t email))); [|exact Ht].
  apply bounded_set; [exact Ht | unfold stored_count; pick_count].
Qed.

(** A count below the limit is followed by a count. *)
Lemma stored_count_succ (x : float) :
  stored_count x -> Number.geb x FREE_LIMIT = false -> stored_count (x + 1)%float.
Proof.
  intros [-> | [-> | [-> | [-> | ->]]]] H; try discriminate;
    unfold stored_count; vm_compute; pick_count.
Qed.

Lemma bounded_checkLimit (t : gmap string float) (email : string) :
  bounded t -> bounded (checkLimit email t).2.
Proof.
  intros Ht. apply (bounded_initialize t email) in Ht. unfold checkLimit.
  destruct (Number.geb (ToNumber (get (initialize email t) email)) FREE_LIMIT)
    eqn:Hlimit; cbn [snd]; [exact Ht|].
  apply bounded_set; [exact Ht|].
  apply stored_count_succ; [apply ToNumber_get, Ht | exact Hlimit].
Qed.

Lemma bounded_reachable (t : gmap string float) : reachable t -> bounded t.
Proof.
  induction 1 as [|email t _ IH|email t _ IH].
  - intros e x. rewrite lookup_empty. discriminate.
  - apply bounded_checkLimit, IH.
  - unfold login. destruct email as [[|c s]|]; try exact IH.
    apply bounded_initialize, IH.
Qed.

(** C9. In every state the server can reach, the usage count stored for an
    identity never exceeds the free limit 3: a stored value is 0, 1, 2 or 3
    (or [NaN], which compares above nothing), because it is written only as
    0 or as the successor of a value that passed the check against the
    limit. *)
Theorem usage_never_exceeds_limit (usageTracker : gmap string float) :
  reachable usageTracker ->
  forall email x, usageTracker !! email = Some x ->
    stored_count x /\ (FREE_LIMIT <? x)%float = false.
Proof.
  intros Hr email x Hx.
  pose proof (bounded_reachable usageTracker Hr email x Hx) as Hc.
  split; [exact Hc|].
  destruct Hc as [-> | [-> | [-> | [-> | ->]]]]; reflexivity.
Qed.

Lemma usage_never_exceeds_limit_witness :
  reachable (requests 5 "guest" ∅).2
  /\ (requests 5 "guest" ∅).2 !! "guest"%string = Some 3%float
  /\ (FREE_LIMIT <? 3)%float = false.
Proof.
  assert (Hr : reachable (requests 5 "guest" ∅).2).
  {
    assert (E : (requests 5 "guest" ∅).2
                = (checkLimit "guest" (checkLimit "guest" (checkLimit "guest"
                    (checkLimit "guest" (checkLimit "guest" ∅).2).2).2).2).2)
      by (vm_compute; reflexivity).
    rewrite E. do 5 apply reachable_request. apply reachable_start. }
  assert (Hx : (requests 5 "guest" ∅).2 !! "guest"%string = Some 3%float)
    by (vm_compute; reflexivity).
  split; [exact Hr|]. split; [exact Hx|].
  exact (proj2 (usage_never_exceeds_limit _ Hr "guest"%string 3%float Hx)).
Defined.

(** An identity that names no property of [Object.prototype] and has no
    count yet: three requests pass, counting 1, 2 and 3, and the fourth is
    rejected with the redirect to the subscription page and leaves the
    count at 3. *)
Lemma checkLimit_fresh (t : gmap string float) (email : string) :
  email ∉ Object_prototype -> t !! email = None ->
  checkLimit email t = (Next, <[email := 1%float]> t).
Proof.
  intros He Ht. pose proof (not_prototype email He) as Hp.
  unfold checkLimit, initialize. rewrite (get_fresh t email He Ht). cbn [ToBoolean negb].
  rewrite (set_own _ _ _ Hp), (get_own _ email 0%float Hp (lookup_insert_eq _ _ _)).
  cbn [ToNumber]. change (Number.geb 0 FREE_LIMIT) with false. cbv iota.
  rewrite (set_own _ _ _ Hp), insert_insert_eq. reflexivity.
Qed.

Lemma checkLimit_counting (t : gmap string float) (email : string) (x : float) :
  email <> "__proto__"%string -> t !! email = Some x ->
  Number.to_boolean x = true -> Number.geb x FREE_LIMIT = false ->
  checkLimit email t = (Next, <[email := (x + 1)%float]> t).
Proof.
  intros Hp Ht Hb Hl. unfold checkLimit, initialize.
  rewrite (get_own t email x Hp Ht). cbn [ToBoolean]. rewrite Hb. cbn [negb].
  rewrite (get_own t email x Hp Ht). cbn [ToNumber]. rewrite Hl.
  rewrite (set_own _ _ _ Hp). reflexivity.
Qed.

Lemma checkLimit_exhausted (t : gmap string float) (email : string) (x : float) :
  email <> "__proto__"%string -> t !! email = Some x ->
  Number.to_boolean x = true -> Number.geb x FREE_LIMIT = true ->
  checkLimit email t = (limit_reached email, t).
Proof.
  intros Hp Ht Hb Hl. unfold checkLimit, initialize.
  rewrite (get_own t email x Hp Ht). cbn [ToBoolean]. rewrite Hb. cbn [negb].
  rewrite (get_own t email x Hp Ht). cbn [ToNumber]. rewrite Hl.
  reflexivity.
Qed.

Lemma three_free_requests (t : gmap string float) (email : string) :
  email ∉ Object_prototype -> t !! email = None ->
  requests 4 email t
  = ([Next; Next; Next; limit_reached email], <[email := 3%float]> t)
  /\ (requests 1 email t).2 !! email = Some 1%float
  /\ (requests 2 email t).2 !! email = Some 2%float
  /\ (requests 3 email t).2 !! email = Some 3%float.
Proof.
  intros He Ht. pose proof (not_prototype email He) as Hp.
  assert (E1 : checkLimit email t = (Next, <[email := 1%float]> t))
    by exact (checkLimit_fresh t email He Ht).
  assert (E2 : checkLimit email (<[email := 1%float]> t)
               = (Next, <[email := 2%float]> t)).
  { rewrite (checkLimit_counting _ email 1%float Hp (lookup_insert_eq _ _ _)
               eq_refl eq_refl).
    rewrite insert_insert_eq. reflexivity. }
  assert (E3 : checkLimit email (<[email := 2%float]> t)
               = (Next, <[email := 3%float]> t)).
  { rewrite (checkLimit_counting _ email 2%float Hp (lookup_insert_eq _ _ _)
               eq_refl eq_refl).
    rewrite insert_insert_eq. reflexivity. }
  assert (E4 : checkLimit email (<[email := 3%float]> t)
               = (limit_reached email, <[email := 3%float]> t))
    by exact (checkLimit_exhausted _ email 3%float Hp (lookup_insert_eq _ _ _)
                eq_refl eq_refl).
  cbn [requests]. rewrite E1, E2, E3, E4. cbn [snd].
  rewrite !lookup_insert_eq. auto.
Qed.

(** C4 at the identities the code misses.  [usageTracker] is a plain
    object, so an identity that names a property of [Object.prototype] is
    not "unseen": for "__proto__" no count is ever stored and every request
    passes, the fourth included; for "constructor" the first request stores
    [NaN], the count restarts from 0 on the second, and the fourth request
    passes too (the fifth is the first one rejected). *)
Theorem free_limit_missed_for_prototype_keys :
  (forall usageTracker,
     checkLimit "__proto__" usageTracker = (Next, usageTracker))
  /\ requests 4 "__proto__" ∅ = ([Next; Next; Next; Next], ∅)
  /\ (requests 5 "constructor" ∅).1
     = [Next; Next; Next; Next; limit_reached "constructor"]
  /\ (requests 1 "constructor" ∅).2 !! "constructor"%string = Some Number.NaN.
Proof.
  split; [intros t; reflexivity|].
  vm_compute. repeat split.
Qed.

End Limiter.

(** * Further properties of the code *)

(** ** More binary64 facts *)

Section MoreNumberFacts.

Lemma mul_nan_r (x : float) : (x * nan)%float = nan.
Proof.
  apply eq_nan. rewrite mul_spec, Prim2SF_nan.
  destruct (Prim2SF x); reflexivity.
Qed.

Lemma is_zero_Prim2SF (x : float) :
  is_zero x = true <-> exists s, Prim2SF x = S754_zero s.
Proof.
  unfold is_zero. rewrite FloatAxioms.eqb_spec.
  change (Prim2SF PrimFloat.zero) with (S754_zero false).
  destruct (Prim2SF x) as [s|s| |s m e]; cbn; split;
    try discriminate; try (intros [s' H]; discriminate); eauto.
  all: destruct s; discriminate.
Qed.

(** A finite number is a zero or has a mantissa and an exponent. *)
Lemma is_finite_Prim2SF (x : float) :
  is_finite x = true ->
  (exists s, Prim2SF x = S754_zero s) \/ (exists s m e, Prim2SF x = S754_finite s m e).
Proof.
  unfold is_finite, is_nan, is_infinity.
  rewrite !FloatAxioms.eqb_spec, abs_spec.
  change (Prim2SF PrimFloat.infinity) with (S754_infinity false).
  destruct (Prim2SF x) as [s|s| |s m e]; intros H.
  - left. eauto.
  - destruct s; discriminate.
  - discriminate.
  - right. eauto.
Qed.

Lemma mul_zero_l (x y : float) :
  is_zero x = true -> is_finite y = true -> is_zero (x * y)%float = true.
Proof.
  intros Hx Hy. apply is_zero_Prim2SF in Hx as [s Hx].
  apply is_zero_Prim2SF. rewrite mul_spec, Hx.
  destruct (is_finite_Prim2SF y Hy) as [[s' ->] | (s' & m & e & ->)]; cbn; eauto.
Qed.

Lemma mul_zero_r (x y : float) :
  is_finite x = true -> is_zero y = true -> is_zero (x * y)%float = true.
Proof.
  intros Hx Hy. apply is_zero_Prim2SF in Hy as [s Hy].
  apply is_zero_Prim2SF. rewrite mul_spec, Hy.
  destruct (is_finite_Prim2SF x Hx) as [[s' ->] | (s' & m & e & ->)]; cbn; eauto.
Qed.

(** [Math.ceil] of a zero is that zero. *)
Lemma ceil_zero (x : float) : is_zero x = true -> Number.ceil x = x.
Proof.
  intros Hx. apply is_zero_Prim2SF in Hx as [s Hx].
  unfold Number.ceil. rewrite Hx. reflexivity.
Qed.

End MoreNumberFacts.

(** ** Errors of the calculator and of its route *)

Section CalculatorErrors.

Import Mixes.

Lemma getQuantity_not_string (c : t) (l : list Aggregates.t) (index : nat) :
  is_string (ratio c) = false ->
  getQuantity index (Heap c l) = (Throw (split_error (ratio c)), Heap c l).
Proof.
  intros Hs. destruct (ratio c) as [|r|o] eqn:Hr; [|discriminate|].
  - apply getQuantity_Undefined, Hr.
  - apply (getQuantity_Object c l o index Hr).
Qed.

(** X1. [getQuantity(index)] throws exactly when the ratio is not a string
    ([undefined], or an array or object) or the index is past the end of the
    material list, and a call that throws has written nothing. *)
Theorem getQuantity_throws (index : nat) (h : heap) :
  (rejected (getQuantity index h).1
   <-> is_string (ratio (this h)) = false \/ (length (materialList h) <= index)%nat)
  /\ (rejected (getQuantity index h).1 -> (getQuantity index h).2 = h).
Proof.
  destruct h as [c l]. cbn [this materialList].
  destruct (is_string (ratio c)) eqn:Hs.
  - destruct (ratio c) as [|r|o] eqn:Hr; try discriminate.
    rewrite (getQuantity_Str c l r index Hr).
    destruct (l !! index) as [m|] eqn:Hm; cbn.
    + apply lookup_lt_Some in Hm. split; [split|].
      * intros [e He]. discriminate.
      * intros [H|H]; [discriminate | lia].
      * intros [e He]. discriminate.
    + apply lookup_ge_None in Hm. split; [split|]; auto.
      intros _. eexists. reflexivity.
  - rewrite (getQuantity_not_string c l index Hs). cbn.
    split; [split; [auto | intros _; eexists; reflexivity] | reflexivity].
Qed.

Lemma getQuantity_throws_witness :
  (getQuantity 0 (Heap (new 10 1.54 (Object "1:2:4,1:3:6") true)
                    initial_materialList)).2
  = Heap (new 10 1.54 (Object "1:2:4,1:3:6") true) initial_materialList.
Proof.
  apply (proj2 (getQuantity_throws 0
                  (Heap (new 10 1.54 (Object "1:2:4,1:3:6") true)
                     initial_materialList))).
  apply (proj1 (getQuantity_throws 0
                  (Heap (new 10 1.54 (Object "1:2:4,1:3:6") true)
                     initial_materialList))).
  left. reflexivity.
Defined.

Lemma getCost_not_string (c : t) (l : list Aggregates.t) :
  is_string (ratio c) = false ->
  Concrete.run l c = (Throw (split_error (ratio c)), Heap c l).
Proof.
  intros Hs. unfold Concrete.run, Concrete.getCost, mbind, M_bind.
  rewrite (getQuantity_not_string c l 0 Hs). reflexivity.
Qed.

(** [getCost] on a list of at least three materials, for a ratio that is a
    string. *)
Lemma getCost_Str_more (c : t) (r : string) (m0 m1 m2 : Aggregates.t)
    (rest : list Aggregates.t) :
  ratio c = Str r ->
  let q i m :=
    Aggregates.set_quantity
      (quantity_of c (JSString.split ":" r) i (Aggregates.factor m)) m in
  Concrete.run (m0 :: m1 :: m2 :: rest) c
  = (Normal [Aggregates.describe (q 0%nat m0); Aggregates.describe (q 1%nat m1);
             Aggregates.describe (q 2%nat m2)],
     Heap c (q 0%nat m0 :: q 1%nat m1 :: q 2%nat m2 :: rest)).
Proof.
  intros Hr. cbv zeta. unfold Concrete.run, Concrete.getCost, mbind, M_bind.
  rewrite (getQuantity_Str c _ r 0 Hr). cbn [lookup list_lookup].
  cbv zeta. cbn [insert list_insert].
  rewrite (getQuantity_Str c _ r 1 Hr). cbn [lookup list_lookup].
  cbv zeta. cbn [insert list_insert].
  rewrite (getQuantity_Str c _ r 2 Hr). cbn [lookup list_lookup].
  cbv zeta. cbn [insert list_insert].
  reflexivity.
Qed.

(** X2. On a material list of at least three materials [getCost] is all or
    nothing: it throws exactly when the ratio is not a string ([undefined],
    or an array or object), with the TypeError of the call of [split] and
    before any quantity is written, and otherwise it returns three results. *)
Theorem getCost_all_or_nothing (c : t) (l : list Aggregates.t) :
  (3 <= length l)%nat ->
  (rejected (Concrete.run l c).1 <-> is_string (ratio c) = false)
  /\ (rejected (Concrete.run l c).1 ->
      Concrete.run l c = (Throw (split_error (ratio c)), Heap c l))
  /\ (is_string (ratio c) = true ->
      exists r0 r1 r2, (Concrete.run l c).1 = Normal [r0; r1; r2]).
Proof.
  intros Hl. destruct l as [|m0 [|m1 [|m2 rest]]]; cbn in Hl; try lia.
  destruct (is_string (ratio c)) eqn:Hs.
  - destruct (ratio c) as [|r|o] eqn:Hr; try discriminate.
    rewrite (getCost_Str_more c r m0 m1 m2 rest Hr). cbv zeta. cbn [fst snd].
    split; [split; [intros [e He]; discriminate | discriminate]|].
    split; [intros [e He]; discriminate | eauto].
  - rewrite (getCost_not_string c _ Hs). cbn.
    split; [split; [auto | intros _; eexists; reflexivity]|].
    split; [reflexivity | discriminate].
Qed.

Lemma getCost_all_or_nothing_witness :
  Concrete.run initial_materialList (new 10 1.54 (Object "1:2:4,1:3:6") true)
  = (Throw (TypeError "ratio.split is not a function"),
     Heap (new 10 1.54 (Object "1:2:4,1:3:6") true) initial_materialList).
Proof.
  destruct (getCost_all_or_nothing (new 10 1.54 (Object "1:2:4,1:3:6") true)
              initial_materialList) as (H1 & H2 & _); [cbn; lia|].
  apply H2, H1. reflexivity.
Defined.

End CalculatorErrors.

Section Route.

Import Mixes.

Local Open Scope string_scope.

Lemma submit_run (concreteVolume concreteRatio : ConcreteRoute.field)
    (l : list Aggregates.t) :
  ConcreteRoute.submit concreteVolume concreteRatio l
  = let concrete :=
      new (JSString.parseFloat (ConcreteRoute.text concreteVolume)) 1.54
        concreteRatio true in
    match Concrete.run l concrete with
    | (Normal results, h) =>
      (Normal (ConcreteRoute.page concreteVolume concreteRatio results),
       materialList h)
    | (Throw e, h) => (Throw e, materialList h)
    end.
Proof. reflexivity. Qed.



Lemma quantity_of_nan_volume (c : t) (parts : list string) (i : nat) (f : float) :
  volume c = nan -> quantity_of c parts i f = nan.
Proof.
  unfold quantity_of. intros ->.
  rewrite mul_nan_l, mul_nan_r, mul_nan_l. reflexivity.
Qed.

(** X4. A volume field that is missing or does not start with a number is
    not rejected: whatever the ratio text, every quantity becomes [NaN] and
    the page lists [name...NaN...unit...price...NaN] for each material. *)
Theorem submit_volume_not_a_number (concreteVolume : ConcreteRoute.field)
    (ratio : string) (m0 m1 m2 : Aggregates.t) :
  is_nan (JSString.parseFloat (ConcreteRoute.text concreteVolume)) = true ->
  ConcreteRoute.submit concreteVolume (Str ratio) [m0; m1; m2]
  = (Normal (ConcreteRoute.page concreteVolume (Str ratio)
               [Some (NaN_description m0); Some (NaN_description m1);
                Some (NaN_description m2)]),
     [Aggregates.set_quantity Number.NaN m0; Aggregates.set_quantity Number.NaN m1;
      Aggregates.set_quantity Number.NaN m2]).
Proof.
  intros Hv. apply is_nan_eq in Hv.
  rewrite submit_run. cbv zeta.
  match goal with
  | |- context [Concrete.run _ ?c] => rewrite (getCost_Str c ratio m0 m1 m2 eq_refl)
  end.
  cbv zeta.
  match goal with
  | |- context [quantity_of ?c _ _ _] =>
    rewrite !(quantity_of_nan_volume c _ _ _ Hv)
  end.
  rewrite !describe_nan. reflexivity.
Qed.

Lemma submit_volume_not_a_number_witness :
  (ConcreteRoute.submit Undefined (Str "1:2:4") initial_materialList).1
  = Normal (ConcreteRoute.page Undefined (Str "1:2:4")
              [Some "cement...NaN...bags...700...NaN";
               Some "sand...NaN...tons...1350...NaN";
               Some "ballast...NaN...tons...2500...NaN"]).
Proof.
  unfold initial_materialList.
  rewrite (submit_volume_not_a_number Undefined "1:2:4" Aggregates.cement
             Aggregates.sand Aggregates.ballast);
    [vm_compute; reflexivity | vm_compute; reflexivity].
Defined.

Lemma quantity_of_zero_volume (c : t) (parts : list string) (i : nat) (f : float) :
  is_zero (volume c) = true -> is_finite (factor c) = true ->
  is_finite (part parts i / sum_of (hasBallast c) parts)%float = true ->
  is_finite f = true ->
  is_zero (quantity_of c parts i f) = true.
Proof.
  intros Hv Hf Hs Hm. unfold quantity_of.
  assert (H : is_zero (part parts i / sum_of (hasBallast c) parts
                       * (volume c * factor c) * f)%float = true)
    by (apply mul_zero_l, Hm; apply mul_zero_r, mul_zero_l; assumption).
  rewrite (ceil_zero _ H). exact H.
Qed.

Lemma describe_zero (q : float) (a : Aggregates.t) :
  is_zero q = true -> Aggregates.describe (Aggregates.set_quantity q a) = None.
Proof.
  intros Hq. unfold Aggregates.describe, Aggregates.set_quantity, Material.describe,
    Number.neq. cbn. unfold is_zero, PrimFloat.zero in Hq. rewrite Hq. reflexivity.
Qed.

(** X5. A volume of zero gives no description at all: when the volume field
    reads as 0 (or -0) and the three shares and material factors are finite,
    every quantity is set to zero, [describe()] returns [undefined] for each
    material, and the page shows the text "undefined" three times. *)
Theorem submit_zero_volume (concreteVolume : ConcreteRoute.field) (ratio : string)
    (m0 m1 m2 : Aggregates.t) :
  let parts := JSString.split ":" ratio in
  is_zero (JSString.parseFloat (ConcreteRoute.text concreteVolume)) = true ->
  (forall i, (i < 3)%nat ->
     is_finite (part parts i / sum_of true parts)%float = true) ->
  Forall (fun m => is_finite (Aggregates.factor m) = true) [m0; m1; m2] ->
  (ConcreteRoute.submit concreteVolume (Str ratio) [m0; m1; m2]).1
  = Normal (ConcreteRoute.page concreteVolume (Str ratio) [None; None; None])
  /\ ConcreteRoute.join (ConcreteRoute.item <$> [None; None; None])
     = "<li>undefined</li><li>undefined</li><li>undefined</li>"
  /\ Forall (fun m => is_zero (Aggregates.quantity m) = true)
       (ConcreteRoute.submit concreteVolume (Str ratio) [m0; m1; m2]).2.
Proof.
  intros parts Hv Hs Hf.
  apply Forall_cons in Hf as [Hf0 Hf]. apply Forall_cons in Hf as [Hf1 Hf].
  apply Forall_cons in Hf as [Hf2 _].
  rewrite submit_run. cbv zeta.
  match goal with
  | |- context [Concrete.run _ ?c] => rewrite (getCost_Str c ratio m0 m1 m2 eq_refl)
  end.
  cbv zeta. cbn [fst snd materialList].
  set (c := new _ _ _ _).
  assert (Hq : forall i f, (i < 3)%nat -> is_finite f = true ->
                 is_zero (quantity_of c parts i f) = true).
  { intros i f Hi Hfin. apply quantity_of_zero_volume; try assumption.
    - reflexivity.
    - apply Hs, Hi. }
  fold parts.
  rewrite !describe_zero by (apply Hq; [lia | assumption]).
  split; [reflexivity|]. split; [reflexivity|].
  repeat constructor; apply Hq; (lia || assumption).
Qed.

Lemma submit_zero_volume_witness :
  (ConcreteRoute.submit (Str "0") (Str "1:2:4") initial_materialList).1
  = Normal (ConcreteRoute.page (Str "0") (Str "1:2:4") [None; None; None]).
Proof.
  apply (submit_zero_volume (Str "0") "1:2:4" Aggregates.cement Aggregates.sand
           Aggregates.ballast).
  - vm_compute. reflexivity.
  - intros [|[|[|i]]] Hi; [vm_compute; reflexivity .. | lia].
  - repeat constructor.
Defined.

End Route.

(** ** A block size with missing segments *)

Section BlockErrors.

Local Open Scope string_scope.

(** X6. A size with fewer than three segments between "x" is not rejected:
    the height is read from [undefined] and is [NaN], and both the volume
    and the blocks per square meter are [NaN]. *)
Theorem block_size_too_short (quantity price : float) (size : string) :
  (length (JSString.split "x" size) < 3)%nat ->
  let b := Block.new quantity price size in
  Block.getBlockDimensions b !! 2%nat = Some Number.NaN
  /\ Block.getVolume b = Number.NaN
  /\ Block.getBlocksPerSquareMeter b = Number.NaN.
Proof.
  intros Hlen. cbv zeta.
  assert (Hheight : (JSString.parseInt
                       (JSString.element (JSString.split "x" size) 2) / 1000)%float
                    = nan).
  { unfold JSString.element.
    rewrite (proj2 (lookup_ge_None (JSString.split "x" size) 2)) by lia.
    change (JSString.parseInt (default "undefined" None)) with nan.
    apply div_nan_l. }
  unfold Block.getVolume, Block.getBlocksPerSquareMeter, Block.getBlockDimensions,
    Block.new, Block.size, Block.at_index.
  cbn [lookup list_lookup default from_option id]. rewrite Hheight.
  split; [reflexivity|]. split.
  - rewrite mul_nan_r, mul_nan_l. reflexivity.
  - rewrite add_nan_l, mul_nan_r, div_nan_r. reflexivity.
Qed.

Lemma block_size_too_short_witness :
  Block.getVolume (Block.new 3000 65 "360x180") = Number.NaN.
Proof.
  apply (block_size_too_short 3000 65 "360x180"). cbn. lia.
Defined.

End BlockErrors.

(** ** The usage limiter under arbitrary traffic *)

Section LimiterTraffic.

Import UsageLimiter.

Lemma lookup_set (t : gmap string float) (email other : string) (x : float) :
  other <> email -> set t email x !! other = t !! other.
Proof.
  intros Hne. unfold set. destruct (decide (email = "__proto__"%string)); [reflexivity|].
  apply lookup_insert_ne. congruence.
Qed.

Lemma lookup_initialize (t : gmap string float) (email other : string) :
  other <> email -> initialize email t !! other = t !! other.
Proof.
  intros Hne. unfold initialize.
  destruct (negb (ToBoolean (get t email))); [apply lookup_set, Hne | reflexivity].
Qed.

Lemma lookup_checkLimit (t : gmap string float) (email other : string) :
  other <> email -> (checkLimit email t).2 !! other = t !! other.
Proof.
  intros Hne. unfold checkLimit.
  destruct (Number.geb _ _); cbn [snd].
  - apply lookup_initialize, Hne.
  - rewrite lookup_set by exact Hne. apply lookup_initialize, Hne.
Qed.

Lemma lookup_login (t : gmap string float) (eo : option string) (other : string) :
  eo <> Some other -> login eo t !! other = t !! other.
Proof.
  intros Hne. unfold login. destruct eo as [[|c s]|]; try reflexivity.
  apply lookup_initialize. congruence.
Qed.

(** What the limiter reads of the tracker is the entry of the identity. *)
Lemma get_ext (t1 t2 : gmap string float) (email : string) :
  t1 !! email = t2 !! email -> get t1 email = get t2 email.
Proof. intros H. unfold get. rewrite H. reflexivity. Qed.

Lemma lookup_set_same (t1 t2 : gmap string float) (email : string) (x : float) :
  t1 !! email = t2 !! email -> set t1 email x !! email = set t2 email x !! email.
Proof.
  intros H. unfold set. destruct (decide (email = "__proto__"%string)); [exact H|].
  rewrite !lookup_insert_eq. reflexivity.
Qed.

Lemma lookup_initialize_same (t1 t2 : gmap string float) (email : string) :
  t1 !! email = t2 !! email ->
  initialize email t1 !! email = initialize email t2 !! email.
Proof.
  intros H. unfold initialize. rewrite (get_ext t1 t2 email H).
  destruct (negb (ToBoolean (get t2 email))); [apply lookup_set_same, H | exact H].
Qed.

Lemma checkLimit_response_ext (t1 t2 : gmap string float) (email : string) :
  t1 !! email = t2 !! email -> (checkLimit email t1).1 = (checkLimit email t2).1.
Proof.
  intros H. unfold checkLimit.
  rewrite (get_ext _ _ email (lookup_initialize_same t1 t2 email H)).
  destruct (Number.geb _ _); reflexivity.
Qed.

(** X7. Identities do not interfere: a request of one identity leaves the
    stored count of every other identity as it was, and does not change the
    answer the other identity gets next. *)
Theorem checkLimit_other_identities (email other : string) (usageTracker : gmap string float) :
  other <> email ->
  (checkLimit email usageTracker).2 !! other = usageTracker !! other
  /\ (checkLimit other (checkLimit email usageTracker).2).1
     = (checkLimit other usageTracker).1.
Proof.
  intros Hne. split.
  - apply lookup_checkLimit, Hne.
  - apply checkLimit_response_ext, lookup_checkLimit, Hne.
Qed.

Lemma checkLimit_other_identities_witness :
  (checkLimit "bob" (checkLimit "guest" ∅).2).1 = (checkLimit "bob" ∅).1.
Proof.
  apply (checkLimit_other_identities "guest" "bob" ∅). discriminate.
Defined.

Lemma initialize_idempotent (t : gmap string float) (email : string) :
  initialize email (initialize email t) = initialize email t.
Proof.
  unfold initialize at 2.
  destruct (negb (ToBoolean (get t email))) eqn:Hb.
  - assert (Hp : email <> "__proto__"%string).
    { intros ->. unfold get in Hb. cbn in Hb. discriminate. }
    rewrite (set_own _ _ _ Hp). unfold initialize. rewrite Hb.
    rewrite (get_own _ email 0%float Hp (lookup_insert_eq _ _ _)).
    cbn [ToBoolean]. change (Number.to_boolean 0) with false. cbn [negb].
    rewrite !(set_own _ _ _ Hp), insert_insert_eq. reflexivity.
  - unfold initialize. rewrite Hb. reflexivity.
Qed.

Lemma checkLimit_initialize (t : gmap string float) (email : string) :
  checkLimit email (initialize email t) = checkLimit email t.
Proof. unfold checkLimit. rewrite initialize_idempotent. reflexivity. Qed.

(** X8. The login handler is transparent to the limiter: after a login
    (with or without an email, of the same or of another identity) every
    identity gets the answer it would have got without it, a login of the
    identity itself leaves the whole outcome of its next request unchanged,
    and a repeated login changes nothing more. *)
Theorem login_is_transparent (body_email : option string) (email : string)
    (usageTracker : gmap string float) :
  (checkLimit email (login body_email usageTracker)).1
  = (checkLimit email usageTracker).1
  /\ checkLimit email (login (Some email) usageTracker) = checkLimit email usageTracker
  /\ login body_email (login body_email usageTracker) = login body_email usageTracker.
Proof.
  split; [|split].
  - destruct (decide (body_email = Some email)) as [->|Hne].
    + unfold login. destruct email as [|c s]; [reflexivity|].
      rewrite checkLimit_initialize. reflexivity.
    + apply checkLimit_response_ext, lookup_login, Hne.
  - unfold login. destruct email as [|c s]; [reflexivity|].
    apply checkLimit_initialize.
  - unfold login. destruct body_email as [[|c s]|]; try reflexivity.
    apply initialize_idempotent.
Qed.

(** A stored value that is falsy ([0] or [NaN]) counts as no request yet. *)
Lemma checkLimit_restart (t : gmap string float) (email : string) (x : float) :
  email <> "__proto__"%string -> t !! email = Some x ->
  Number.to_boolean x = false ->
  checkLimit email t = (Next, <[email := 1%float]> t).
Proof.
  intros Hp Ht Hb. unfold checkLimit, initialize.
  rewrite (get_own t email x Hp Ht). cbn [ToBoolean]. rewrite Hb. cbn [negb].
  rewrite (set_own _ _ _ Hp), (get_own _ email 0%float Hp (lookup_insert_eq _ _ _)).
  cbn [ToNumber]. change (Number.geb 0 FREE_LIMIT) with false. cbv iota.
  rewrite (set_own _ _ _ Hp), insert_insert_eq. reflexivity.
Qed.

(** The rejection passes nothing on, whether it answers or throws. *)
Lemma limit_reached_not_next (email : string) :
  is_next (limit_reached email) = false.
Proof.
  unfold limit_reached. destruct (JSString.encodeURIComponent email); reflexivity.
Qed.

(** One request of an identity that names no prototype property uses one
    unit of its credit when it is let through, and none when it is not. *)
Lemma checkLimit_credit (t : gmap string float) (email : string) :
  bounded t -> email ∉ Object_prototype ->
  (credit ((checkLimit email t).2 !! email)
   + (if is_next (checkLimit email t).1 then 1 else 0)
   = credit (t !! email))%nat.
Proof.
  intros Hb He. pose proof (not_prototype email He) as Hp.
  destruct (t !! email) as [x|] eqn:Hx.
  - destruct (Hb email x Hx) as [-> | [-> | [-> | [-> | ->]]]].
    + rewrite (checkLimit_restart t email _ Hp Hx eq_refl). cbn [fst snd is_next].
      rewrite lookup_insert_eq. reflexivity.
    + rewrite (checkLimit_restart t email _ Hp Hx eq_refl). cbn [fst snd is_next].
      rewrite lookup_insert_eq. reflexivity.
    + rewrite (checkLimit_counting t email _ Hp Hx eq_refl eq_refl).
      cbn [fst snd is_next]. rewrite lookup_insert_eq. reflexivity.
    + rewrite (checkLimit_counting t email _ Hp Hx eq_refl eq_refl).
      cbn [fst snd is_next]. rewrite lookup_insert_eq. reflexivity.
    + rewrite (checkLimit_exhausted t email _ Hp Hx eq_refl eq_refl).
      cbn [fst snd]. rewrite limit_reached_not_next, Hx. reflexivity.
  - rewrite (checkLimit_fresh t email He Hx). cbn [fst snd is_next].
    rewrite lookup_insert_eq. reflexivity.
Qed.

Lemma login_credit (t : gmap string float) (body_email : option string) (email : string) :
  bounded t -> email ∉ Object_prototype ->
  credit (login body_email t !! email) = credit (t !! email).
Proof.
  intros Hb He. pose proof (not_prototype email He) as Hp.
  destruct (decide (body_email = Some email)) as [->|Hne];
    [|rewrite lookup_login by exact Hne; reflexivity].
  unfold login. destruct email as [|c s]; [reflexivity|].
  unfold initialize.
  destruct (t !! String c s) as [x|] eqn:Hx.
  - rewrite (get_own t _ x Hp Hx). cbn [ToBoolean].
    destruct (Hb _ x Hx) as [-> | [-> | [-> | [-> | ->]]]]; cbn;
      rewrite ?(set_own _ _ _ Hp), ?lookup_insert_eq, ?Hx; reflexivity.
  - rewrite (get_fresh t _ He Hx). cbn [ToBoolean negb].
    rewrite (set_own _ _ _ Hp), lookup_insert_eq. reflexivity.
Qed.

Lemma allowed_cons (email e : string) (r : response)
    (log : list (string * response)) :
  allowed email ((e, r) :: log)
  = ((if String.eqb e email && is_next r then 1 else 0) + allowed email log)%nat.
Proof.
  unfold allowed. rewrite filter_cons. cbn [fst snd].
  destruct (String.eqb e email && is_next r); reflexivity.
Qed.

Lemma serve_credit (events : list event) (t : gmap string float) (email : string) :
  bounded t -> email ∉ Object_prototype ->
  (allowed email (serve events t).1 + credit ((serve events t).2 !! email)
   = credit (t !! email))%nat.
Proof.
  intros Hb He. revert t Hb.
  induction events as [|[e|eo] events IH]; intros t Hb; cbn [serve].
  - reflexivity.
  - pose proof (bounded_checkLimit t e Hb) as Hb'.
    pose proof (checkLimit_credit t email Hb He) as Hc.
    pose proof (lookup_checkLimit t e email) as Hl.
    destruct (checkLimit e t) as [r t'] eqn:Hcl. cbn [fst snd] in *.
    specialize (IH t' Hb').
    destruct (serve events t') as [log t''] eqn:Hs. cbn [fst snd] in *.
    rewrite allowed_cons.
    destruct (String.eqb_spec e email) as [->|Hne].
    + rewrite Hcl in Hc. cbn [fst snd andb] in *. lia.
    + cbn [andb]. rewrite Hl in IH by congruence. lia.
  - assert (Hb' : bounded (login eo t)).
    { unfold login. destruct eo as [[|c s]|]; try exact Hb.
      apply bounded_initialize, Hb. }
    rewrite (IH _ Hb'). apply login_credit; assumption.
Qed.

End LimiterTraffic.

Section Quota.

Import UsageLimiter.

Lemma bounded_empty : bounded ∅.
Proof. intros e x. rewrite lookup_empty. discriminate. Qed.

(** X9. The quota holds under arbitrary traffic: from the empty tracker,
    however the requests of an identity are interleaved with the requests of
    other identities and with logins, at most three requests of an identity
    that names no property of [Object.prototype] are let through. *)
Theorem at_most_three_allowed (events : list event) (email : string) :
  email ∉ Object_prototype ->
  (allowed email (serve events ∅).1 <= 3)%nat.
Proof.
  intros He.
  pose proof (serve_credit events ∅ email bounded_empty He) as H.
  rewrite lookup_empty in H. cbn [credit] in H. lia.
Qed.

Lemma at_most_three_allowed_witness :
  (allowed "guest"
     (serve [Request "guest"; LoggedIn (Some "bob"); Request "bob"; Request "guest";
             Request "guest"; LoggedIn (Some "guest"); Request "guest";
             Request "guest"]%string ∅).1 <= 3)%nat.
Proof.
  apply (at_most_three_allowed _ "guest").
  unfold Object_prototype. intros H.
  repeat (apply elem_of_cons in H as [H|H]; [discriminate|]).
  inversion H.
Defined.

(** The one error [encodeURIComponent] throws. *)
Lemma encodeURIComponent_throws (s : string) (e : error) :
  JSString.encodeURIComponent s = Throw e -> e = URIError "URI malformed".
Proof.
  induction s as [|c s IH]; cbn [JSString.encodeURIComponent]; [discriminate|].
  destruct (match s with
            | String c2 (String c3 _) => JSString.is_surrogate c c2 c3
            | _ => false
            end); [intros [= <-]; reflexivity|].
  destruct (JSString.encodeURIComponent s) as [rest|e'];
    [destruct (JSString.uri_unreserved c); discriminate|].
  intros [= <-]. apply IH. reflexivity.
Qed.

Lemma checkLimit_at_limit (t : gmap string float) (email : string) :
  email <> "__proto__"%string -> t !! email = Some 3%float ->
  checkLimit email t = (limit_reached email, t).
Proof.
  intros Hp Ht. exact (checkLimit_exhausted t email 3%float Hp Ht eq_refl eq_refl).
Qed.

Lemma login_at_limit (t : gmap string float) (body_email : option string)
    (email : string) :
  email <> "__proto__"%string -> t !! email = Some 3%float ->
  login body_email t !! email = Some 3%float.
Proof.
  intros Hp Ht.
  destruct (decide (body_email = Some email)) as [->|Hne];
    [|rewrite lookup_login by exact Hne; exact Ht].
  unfold login. destruct email as [|c s]; [exact Ht|].
  unfold initialize. rewrite (get_own t _ _ Hp Ht). exact Ht.
Qed.

(** X10. There is no way back below the limit: once the count stored for an
    identity is 3, it stays 3 whatever requests and logins follow, and no
    later request of that identity is passed on: each one ends in the
    rejection branch, which answers with the 403 and its redirect, or throws
    the URIError of [encodeURIComponent] when the identity holds an unpaired
    surrogate. *)
Theorem limit_is_permanent (events : list event) (email : string)
    (usageTracker : gmap string float) :
  email <> "__proto__"%string ->
  usageTracker !! email = Some 3%float ->
  (serve events usageTracker).2 !! email = Some 3%float
  /\ Forall (fun er => er.1 = email ->
                        er.2 = limit_reached email /\ is_next er.2 = false)
       (serve events usageTracker).1
  /\ ((exists component,
         JSString.encodeURIComponent email = Normal component
         /\ limit_reached email
            = Json 403 "Free limit reached. Please subscribe to continue."
                ("/subscribe.html?email=" +:+ component))
      \/ (JSString.encodeURIComponent email = Throw (URIError "URI malformed")
          /\ limit_reached email = Thrown (URIError "URI malformed"))).
Proof.
  intros Hp H. split; [|split].
  - revert usageTracker H.
    induction events as [|[e|eo] events IH]; intros t Ht; cbn [serve].
    + exact Ht.
    + pose proof (lookup_checkLimit t e email) as Hl.
      destruct (decide (e = email)) as [->|Hne].
      * rewrite (checkLimit_at_limit t email Hp Ht).
        specialize (IH t Ht).
        destruct (serve events t) as [log t'']. exact IH.
      * destruct (checkLimit e t) as [r t'] eqn:Hcl. cbn [snd] in Hl.
        assert (Ht' : t' !! email = Some 3%float)
          by (rewrite Hl by congruence; exact Ht).
        specialize (IH t' Ht').
        destruct (serve events t') as [log t'']. exact IH.
    + apply IH, login_at_limit; assumption.
  - revert usageTracker H.
    induction events as [|[e|eo] events IH]; intros t Ht; cbn [serve].
    + constructor.
    + pose proof (lookup_checkLimit t e email) as Hl.
      destruct (decide (e = email)) as [->|Hne].
      * rewrite (checkLimit_at_limit t email Hp Ht).
        specialize (IH t Ht).
        destruct (serve events t) as [log t'']. cbn [fst] in *.
        constructor; [|exact IH].
        intros _. split; [reflexivity | apply limit_reached_not_next].
      * destruct (checkLimit e t) as [r t'] eqn:Hcl. cbn [snd] in Hl.
        assert (Ht' : t' !! email = Some 3%float)
          by (rewrite Hl by congruence; exact Ht).
        specialize (IH t' Ht').
        destruct (serve events t') as [log t'']. cbn [fst] in *.
        constructor; [cbn; congruence | exact IH].
    + apply IH, login_at_limit; assumption.
  - unfold limit_reached.
    destruct (JSString.encodeURIComponent email) as [component|e] eqn:He.
    + left. exists component. split; reflexivity.
    + right. rewrite (encodeURIComponent_throws email e He). split; reflexivity.
Qed.

Lemma limit_is_permanent_witness :
  let events := [Request "bob"; LoggedIn (Some "guest"); Request "guest"]%string in
  let usageTracker := (requests 3 "guest" ∅).2 in
  (serve events usageTracker).2 !! "guest"%string = Some 3%float
  /\ (serve events usageTracker).1
     = [("bob", Next);
        ("guest", Json 403 "Free limit reached. Please subscribe to continue."
                    "/subscribe.html?email=guest")]%string.
Proof.
  intros events usageTracker.
  destruct (limit_is_permanent events "guest" usageTracker) as (H & _ & _).
  - discriminate.
  - vm_compute. reflexivity.
  - split; [exact H | vm_compute; reflexivity].
Defined.

(** An identity with an unpaired surrogate: three requests pass, the fourth
    throws, and the count stays 3. *)
Example checkLimit_surrogate :
  let email := string_of_list_ascii (List.map ascii_of_nat [237; 160; 128]%nat) in
  (requests 4 email ∅).1
  = [Next; Next; Next; Thrown (URIError "URI malformed")]
  /\ (requests 4 email ∅).2 !! email = Some 3%float.
Proof. vm_compute. split; reflexivity. Qed.

Lemma hex_digits_encoded (c : ascii) :
  encoded_char (JSString.hex_digit (nat_of_ascii c / 16)) = true
  /\ encoded_char (JSString.hex_digit (nat_of_ascii c mod 16)) = true.
Proof. destruct c as [[] [] [] [] [] [] [] []]; split; reflexivity. Qed.

Lemma encodeURIComponent_encoded (s component : string) :
  JSString.encodeURIComponent s = Normal component ->
  all_chars encoded_char component = true.
Proof.
  revert component.
  induction s as [|c s IH]; intros component; cbn [JSString.encodeURIComponent].
  - intros [= <-]. reflexivity.
  - destruct (match s with
              | String c2 (String c3 _) => JSString.is_surrogate c c2 c3
              | _ => false
              end); [discriminate|].
    destruct (JSString.encodeURIComponent s) as [rest|e]; [|discriminate].
    specialize (IH rest eq_refl).
    cbv zeta.
    destruct (JSString.uri_unreserved c) eqn:Hc; intros [= <-]; cbn [all_chars];
      rewrite IH.
    + unfold encoded_char. rewrite Hc. reflexivity.
    + destruct (hex_digits_encoded c) as [H1 H2].
      exact (f_equal2 andb eq_refl (f_equal2 andb H1 (f_equal2 andb H2 eq_refl))).
Qed.

(** X11. The redirect of a rejection cannot be bent by the identity: it is
    "/subscribe.html?email=" followed by characters that are unreserved in a
    URI component or "%", so no "&", "#", "?", "/", "=" or space of the
    identity reaches the URL as it is. *)
Theorem redirect_is_encoded (email : string) (usageTracker : gmap string float)
    (status : nat) (message redirectTo : string) :
  (checkLimit email usageTracker).1 = Json status message redirectTo ->
  exists component,
    redirectTo = ("/subscribe.html?email=" +:+ component)%string
    /\ all_chars encoded_char component = true
    /\ all_chars (fun c => negb (existsb (Ascii.eqb c)
                                   ["&"; "#"; "?"; "/"; "="; " "]%char))
         component = true.
Proof.
  unfold checkLimit. destruct (Number.geb _ _); [|discriminate].
  cbn [fst].
  destruct (JSString.encodeURIComponent email) as [component|e] eqn:He;
    [|discriminate].
  intros [= _ _ <-]. exists component.
  pose proof (encodeURIComponent_encoded email component He) as H.
  split; [reflexivity|]. split; [exact H|]. clear He.
  induction component as [|c s IH]; [reflexivity|].
  cbn [all_chars] in *. apply andb_prop in H as [Hc Hs].
  rewrite (IH Hs), andb_true_r. clear IH Hs.
  destruct c as [[] [] [] [] [] [] [] []]; try reflexivity; discriminate.
Qed.

Lemma redirect_is_encoded_witness :
  exists component,
    ("/subscribe.html?email=a%26b%3Dc" = "/subscribe.html?email=" +:+ component)%string
    /\ all_chars encoded_char component = true
    /\ all_chars (fun c => negb (existsb (Ascii.eqb c)
                                   ["&"; "#"; "?"; "/"; "="; " "]%char))
         component = true.
Proof.
  apply (redirect_is_encoded "a&b=c" (requests 3 "a&b=c" ∅).2 403
           "Free limit reached. Please subscribe to continue.").
  vm_compute. reflexivity.
Defined.

End Quota.

(** ** The matcher decides the language of the pattern *)

Section RegExpFacts.

Local Open Scope string_scope.
Local Arguments String.append !_ _ / : simpl nomatch.

Lemma append_nil_r (s : string) : s +:+ "" = s.
Proof. induction s as [|c s IH]; cbn; [reflexivity | rewrite IH; reflexivity]. Qed.

Lemma append_assoc (s1 s2 s3 : string) : (s1 +:+ s2) +:+ s3 = s1 +:+ (s2 +:+ s3).
Proof. induction s1 as [|c s1 IH]; cbn; [reflexivity | rewrite IH; reflexivity]. Qed.

Lemma append_eq_nil (s1 s2 : string) : s1 +:+ s2 = "" -> s1 = "" /\ s2 = "".
Proof. destruct s1; cbn; [auto | discriminate]. Qed.

Lemma append_eq_cons (s1 s2 s : string) (c : ascii) :
  s1 +:+ s2 = String c s ->
  (s1 = "" /\ s2 = String c s) \/ (exists s1', s1 = String c s1' /\ s = s1' +:+ s2).
Proof.
  destruct s1 as [|c1 s1]; cbn; [auto|].
  intros [= -> <-]. right. eauto.
Qed.

Lemma all_chars_append (p : ascii -> bool) (s1 s2 : string) :
  all_chars p (s1 +:+ s2) = all_chars p s1 && all_chars p s2.
Proof.
  induction s1 as [|c s1 IH]; cbn; [reflexivity|].
  rewrite IH. apply andb_assoc.
Qed.

Lemma nullable_matches (r : RegExp.t) :
  RegExp.nullable r = true <-> matches r "".
Proof.
  split.
  - induction r as [| |p|r1 IH1 r2 IH2|r1 IH1 r2 IH2|r IH]; cbn; intros H;
      try discriminate.
    + constructor.
    + apply orb_prop in H as [H|H];
        [apply matches_alt_l, IH1, H | apply matches_alt_r, IH2, H].
    + apply andb_prop in H as [H1 H2].
      apply (matches_seq r1 r2 "" ""); auto.
    + constructor.
  - intros H. remember "" as s eqn:Hs.
    induction H as [|p c Hp|r1 r2 s H IH|r1 r2 s H IH
                    |r1 r2 s1 s2 H1 IH1 H2 IH2|r|r s1 s2 H1 IH1 H2 IH2]; cbn;
      try reflexivity; try discriminate.
    + rewrite (IH Hs). reflexivity.
    + rewrite (IH Hs). apply orb_true_r.
    + apply append_eq_nil in Hs as [-> ->]. rewrite IH1, IH2; reflexivity.
Qed.

Lemma derive_sound (c : ascii) (r : RegExp.t) (s : string) :
  matches (RegExp.derive c r) s -> matches r (String c s).
Proof.
  revert s.
  induction r as [| |p|r1 IH1 r2 IH2|r1 IH1 r2 IH2|r IH]; cbn; intros s H.
  - inversion H.
  - inversion H.
  - destruct (p c) eqn:Hp; inversion H; subst. constructor. exact Hp.
  - inversion H; subst; [apply matches_alt_l | apply matches_alt_r]; auto.
  - destruct (RegExp.nullable r1) eqn:Hn.
    + inversion H as [| |? ? ? H'|? ? ? H'| | |]; subst.
      * inversion H' as [| | | |? ? s1 s2 Ha Hb| |]; subst.
        apply (matches_seq r1 r2 (String c s1) s2); auto.
      * apply (matches_seq r1 r2 "" (String c s)); [|auto].
        apply nullable_matches, Hn.
    + inversion H as [| | | |? ? s1 s2 Ha Hb| |]; subst.
      apply (matches_seq r1 r2 (String c s1) s2); auto.
  - inversion H as [| | | |? ? s1 s2 Ha Hb| |]; subst.
    apply (matches_star_more r (String c s1) s2); auto.
Qed.

Lemma derive_complete (c : ascii) (r : RegExp.t) (s : string) :
  matches r (String c s) -> matches (RegExp.derive c r) s.
Proof.
  intros H. remember (String c s) as s0 eqn:Hs. revert s Hs.
  induction H as [|p c0 Hp|r1 r2 s0 H IH|r1 r2 s0 H IH
                  |r1 r2 s1 s2 H1 IH1 H2 IH2|r|r s1 s2 H1 IH1 H2 IH2];
    intros s Hs; cbn.
  - discriminate.
  - injection Hs as -> <-. rewrite Hp. constructor.
  - apply matches_alt_l, IH, Hs.
  - apply matches_alt_r, IH, Hs.
  - apply append_eq_cons in Hs as [[-> ->] | (s1' & -> & ->)].
    + rewrite (proj2 (nullable_matches r1) H1).
      apply matches_alt_r, IH2. reflexivity.
    + specialize (IH1 s1' eq_refl).
      destruct (RegExp.nullable r1);
        [apply matches_alt_l|]; apply matches_seq; assumption.
  - discriminate.
  - apply append_eq_cons in Hs as [[-> ->] | (s1' & -> & ->)].
    + apply IH2. reflexivity.
    + apply matches_seq; [apply IH1; reflexivity | exact H2].
Qed.

(** [test] accepts exactly the strings of the language. *)
Lemma test_matches (r : RegExp.t) (s : string) :
  RegExp.test r s = true <-> matches r s.
Proof.
  revert r. induction s as [|c s IH]; intros r; cbn.
  - apply nullable_matches.
  - rewrite IH. split; [apply derive_sound | apply derive_complete].
Qed.

Lemma matches_seq_inv (r1 r2 : RegExp.t) (s : string) :
  matches (RegExp.Seq r1 r2) s <->
  exists s1 s2, s = s1 +:+ s2 /\ matches r1 s1 /\ matches r2 s2.
Proof.
  split.
  - intros H. inversion H; subst. eauto.
  - intros (s1 & s2 & -> & H1 & H2). constructor; assumption.
Qed.

Lemma matches_char (c : ascii) (s : string) :
  matches (RegExp.Char c) s <-> s = String c "".
Proof.
  unfold RegExp.Char. split.
  - intros H. inversion H as [|p c0 Hp| | | | |]; subst.
    apply Ascii.eqb_eq in Hp. subst. reflexivity.
  - intros ->. constructor. apply Ascii.eqb_refl.
Qed.

Lemma matches_star_class (p : ascii -> bool) (s : string) :
  matches (RegExp.Star (RegExp.Class p)) s <-> all_chars p s = true.
Proof.
  split.
  - intros H. remember (RegExp.Star (RegExp.Class p)) as r eqn:Hr.
    induction H as [|p0 c0 Hp|r1 r2 s0 H IH|r1 r2 s0 H IH
                    |r1 r2 s1 s2 H1 IH1 H2 IH2|r|r s1 s2 H1 IH1 H2 IH2];
      try discriminate; [reflexivity|].
    injection Hr as ->. inversion H1; subst. cbn.
    rewrite (IH2 eq_refl). rewrite andb_true_r. assumption.
  - induction s as [|c s IH]; cbn; intros H; [constructor|].
    apply andb_prop in H as [Hc Hs].
    apply (matches_star_more _ (String c "") s); [constructor; exact Hc | auto].
Qed.

Lemma matches_plus_class (p : ascii -> bool) (s : string) :
  matches (RegExp.Plus (RegExp.Class p)) s <-> s <> "" /\ all_chars p s = true.
Proof.
  unfold RegExp.Plus. rewrite matches_seq_inv. split.
  - intros (s1 & s2 & -> & H1 & H2). inversion H1; subst.
    apply matches_star_class in H2. cbn. rewrite H2, andb_true_r.
    split; [discriminate | assumption].
  - intros [Hne H]. destruct s as [|c s]; [congruence|].
    cbn in H. apply andb_prop in H as [Hc Hs].
    exists (String c ""), s. split; [reflexivity|].
    split; [constructor; exact Hc | apply matches_star_class, Hs].
Qed.

End RegExpFacts.

(** ** Email validation and login (server.js) *)

Section EmailValidation.

Import Server.

Local Open Scope string_scope.
Local Arguments String.append !_ _ / : simpl nomatch.

(** The strings the email pattern accepts. *)
Lemma isValidEmail_parts (email : string) :
  isValidEmail email = true <->
  exists local d1 d2,
    email = local +:+ "@" +:+ d1 +:+ "." +:+ d2
    /\ address_part local /\ address_part d1 /\ address_part d2.
Proof.
  unfold isValidEmail, emailRegex, address_part. rewrite test_matches.
  rewrite matches_seq_inv. split.
  - intros (local & s1 & -> & Hl & H).
    apply matches_seq_inv in H as (a & s2 & -> & Ha & H).
    apply matches_seq_inv in H as (d1 & s3 & -> & Hd1 & H).
    apply matches_seq_inv in H as (b & d2 & -> & Hb & Hd2).
    apply matches_char in Ha as ->. apply matches_char in Hb as ->.
    apply matches_plus_class in Hl, Hd1, Hd2.
    exists local, d1, d2. auto.
  - intros (local & d1 & d2 & -> & Hl & Hd1 & Hd2).
    exists local, ("@" +:+ d1 +:+ "." +:+ d2). split; [reflexivity|].
    split; [apply matches_plus_class, Hl|].
    apply matches_seq_inv. exists "@", (d1 +:+ "." +:+ d2).
    split; [reflexivity|]. split; [apply matches_char; reflexivity|].
    apply matches_seq_inv. exists d1, ("." +:+ d2).
    split; [reflexivity|]. split; [apply matches_plus_class, Hd1|].
    apply matches_seq_inv. exists ".", d2.
    split; [reflexivity|]. split; [apply matches_char; reflexivity|].
    apply matches_plus_class, Hd2.
Qed.

(** X12. [isValidEmail] accepts exactly the strings [local@d1.d2] whose
    three parts are not empty and contain neither white space nor "@"; the
    parts may contain dots themselves. *)
Theorem isValidEmail_spec (email : string) :
  isValidEmail email = true <->
  exists local d1 d2,
    email = local +:+ "@" +:+ d1 +:+ "." +:+ d2
    /\ address_part local /\ address_part d1 /\ address_part d2.
Proof. exact (isValidEmail_parts email). Qed.

Lemma isValidEmail_spec_witness :
  isValidEmail "bob.b@mail.example.org" = true.
Proof.
  apply (proj2 (isValidEmail_spec "bob.b@mail.example.org")).
  exists "bob.b", "mail.example", "org". unfold address_part.
  repeat split; discriminate.
Defined.

Lemma split_nonempty (sep : ascii) (s : string) :
  exists hd tl, JSString.split sep s = hd :: tl.
Proof.
  induction s as [|c s (hd & tl & IH)]; cbn; [eauto|].
  destruct (Ascii.eqb c sep); [eauto|]. rewrite IH. eauto.
Qed.

(** The split has a second element exactly when the separator occurs. *)
Lemma split_second (sep : ascii) (s : string) :
  JSString.split sep s !! 1%nat = None
  <-> all_chars (fun c => negb (Ascii.eqb c sep)) s = true.
Proof.
  induction s as [|c s IH]; cbn; [split; reflexivity|].
  destruct (Ascii.eqb c sep); cbn.
  - destruct (split_nonempty sep s) as (hd & tl & ->). cbn.
    split; discriminate.
  - destruct (split_nonempty sep s) as (hd & tl & E). rewrite E in *. cbn in *.
    exact IH.
Qed.

Lemma split_no_separator (sep : ascii) (s : string) :
  all_chars (fun c => negb (Ascii.eqb c sep)) s = true ->
  JSString.split sep s = [s].
Proof.
  induction s as [|c s IH]; cbn; [reflexivity|].
  intros H. apply andb_prop in H as [Hc Hs].
  apply negb_true_iff in Hc. rewrite Hc, (IH Hs). reflexivity.
Qed.

Lemma split_before_separator (sep : ascii) (s rest : string) :
  all_chars (fun c => negb (Ascii.eqb c sep)) s = true ->
  JSString.split sep (s +:+ String sep rest) = s :: JSString.split sep rest.
Proof.
  induction s as [|c s IH]; cbn.
  - intros _. rewrite Ascii.eqb_refl. reflexivity.
  - intros H. apply andb_prop in H as [Hc Hs].
    apply negb_true_iff in Hc. rewrite Hc, (IH Hs). reflexivity.
Qed.

Lemma all_chars_impl (p q : ascii -> bool) (s : string) :
  (forall c, p c = true -> q c = true) ->
  all_chars p s = true -> all_chars q s = true.
Proof.
  intros Hpq. induction s as [|c s IH]; cbn; [reflexivity|].
  intros H. apply andb_prop in H as [Hc Hs].
  rewrite (Hpq c Hc), (IH Hs). reflexivity.
Qed.

Lemma not_space_at_no_at (s : string) :
  all_chars not_space_at s = true ->
  all_chars (fun c => negb (Ascii.eqb c "@")) s = true.
Proof.
  apply all_chars_impl. intros c. unfold not_space_at.
  rewrite negb_orb. intros H. apply andb_prop in H as [_ H]. exact H.
Qed.

(** The domain [email.split('@')[1]] of an address that passed the format
    check is all that follows its "@". *)
Lemma after_at_valid (local d1 d2 : string) :
  address_part local -> address_part d1 -> address_part d2 ->
  after_at (local +:+ "@" +:+ d1 +:+ "." +:+ d2) = Some (d1 +:+ "." +:+ d2).
Proof.
  intros [_ Hl] [_ H1] [_ H2]. unfold after_at.
  change (local +:+ "@" +:+ d1 +:+ "." +:+ d2)
    with (local +:+ String "@" (d1 +:+ String "." d2)).
  rewrite (split_before_separator "@" local _ (not_space_at_no_at _ Hl)).
  rewrite split_no_separator; [reflexivity|].
  rewrite all_chars_append. cbn.
  rewrite (not_space_at_no_at _ H1), (not_space_at_no_at _ H2). reflexivity.
Qed.

(** X13. [checkDisposableEmail] throws a TypeError exactly on a string
    without "@"; on an address that passed [isValidEmail], as in
    [enhancedEmailValidation], it never throws. *)
Theorem checkDisposableEmail_throws (email : string) :
  (rejected (checkDisposableEmail email)
   <-> all_chars (fun c => negb (Ascii.eqb c "@")) email = true)
  /\ (isValidEmail email = true -> ~ rejected (checkDisposableEmail email)).
Proof.
  assert (H : rejected (checkDisposableEmail email)
              <-> all_chars (fun c => negb (Ascii.eqb c "@")) email = true).
  { rewrite <- split_second. unfold checkDisposableEmail, after_at.
    destruct (JSString.split "@" email !! 1%nat) as [d|].
    - split; [|discriminate]. intros [e He].
      destruct (bool_decide _); discriminate.
    - split; [reflexivity|]. intros _. eexists. reflexivity. }
  split; [exact H|].
  intros Hv Hr. apply H in Hr.
  apply isValidEmail_parts in Hv as (local & d1 & d2 & -> & _ & _ & _).
  rewrite all_chars_append in Hr. apply andb_prop in Hr as [_ Hr].
  cbn in Hr. discriminate.
Qed.

Lemma checkDisposableEmail_throws_witness :
  ~ rejected (checkDisposableEmail "bob@tempmail.com").
Proof.
  apply (proj2 (checkDisposableEmail_throws "bob@tempmail.com")).
  vm_compute. reflexivity.
Defined.

End EmailValidation.

Section Login.

Import Server.

Local Open Scope string_scope.
Local Arguments String.append !_ _ / : simpl nomatch.

(** X14. [enhancedEmailValidation] never throws on a string, and it accepts
    an address exactly when the format check passes, the domain in lower
    case is not in the disposable list, and the MX lookup neither returns
    zero records nor fails with ENOTFOUND or ENODATA; any other failure of
    the lookup lets the address through.  A refusal carries a reason. *)
Theorem enhancedEmailValidation_accepts (resolveMx : string -> mx_result)
    (email : string) :
  exists v,
    enhancedEmailValidation resolveMx email = Normal v
    /\ (valid v = true <->
        isValidEmail email = true
        /\ exists domain,
             after_at email = Some domain
             /\ (toLowerCase domain ∉ disposableDomains)
             /\ resolveMx domain <> Records 0
             /\ resolveMx domain <> Rejected "ENOTFOUND"
             /\ resolveMx domain <> Rejected "ENODATA")
    /\ (valid v = false -> exists m, reason v = Some m).
Proof.
  unfold enhancedEmailValidation.
  destruct (isValidEmail email) eqn:Hv; cbn [negb].
  - pose proof Hv as Hs.
    apply isValidEmail_parts in Hs as (local & d1 & d2 & -> & Hl & H1 & H2).
    pose proof (after_at_valid local d1 d2 Hl H1 H2) as Ha.
    unfold checkDisposableEmail. rewrite Ha.
    destruct (bool_decide (toLowerCase (d1 +:+ "." +:+ d2) ∈ disposableDomains))
      eqn:Hd; cbn [valid negb].
    + apply bool_decide_eq_true in Hd.
      eexists. split; [reflexivity|]. cbn [valid reason]. split; [|eauto].
      split; [discriminate|].
      intros (_ & domain & [= <-] & Hn & _). contradiction.
    + apply bool_decide_eq_false in Hd.
      destruct (resolveMx (d1 +:+ "." +:+ d2)) as [[|n]|code] eqn:Hmx.
      * eexists. split; [reflexivity|]. cbn [valid reason]. split; [|eauto].
        split; [discriminate|].
        intros (_ & domain & [= <-] & _ & Hn & _). destruct (Hn Hmx).
      * eexists. split; [reflexivity|]. cbn [valid]. split; [|discriminate].
        split; [|reflexivity]. intros _. split; [reflexivity|].
        exists (d1 +:+ "." +:+ d2). rewrite Hmx.
        repeat split; (assumption || discriminate).
      * destruct (String.eqb_spec code "ENOTFOUND") as [->|Hc1].
        { eexists. split; [reflexivity|]. cbn [valid reason]. split; [|eauto].
          split; [discriminate|].
          intros (_ & domain & [= <-] & _ & _ & Hn & _). destruct (Hn Hmx). }
        destruct (String.eqb_spec code "ENODATA") as [->|Hc2].
        { eexists. split; [reflexivity|]. cbn [valid reason]. split; [|eauto].
          split; [discriminate|].
          intros (_ & domain & [= <-] & _ & _ & _ & Hn). destruct (Hn Hmx). }
        eexists. split; [reflexivity|]. cbn [valid]. split; [|discriminate].
        split; [|reflexivity]. intros _. split; [reflexivity|].
        exists (d1 +:+ "." +:+ d2). rewrite Hmx.
        repeat split; (assumption || congruence).
  - eexists. split; [reflexivity|]. cbn [valid reason]. split; [|eauto].
    split; [discriminate | intros [H _]; discriminate].
Qed.

Lemma enhancedEmailValidation_accepts_witness :
  exists v,
    enhancedEmailValidation (fun _ => Rejected "ETIMEOUT") "bob@mail.example.org"
    = Normal v /\ valid v = true.
Proof.
  destruct (enhancedEmailValidation_accepts (fun _ => Rejected "ETIMEOUT")
              "bob@mail.example.org") as (v & E & Hv & _).
  exists v. split; [exact E|].
  apply Hv. split; [vm_compute; reflexivity|].
  exists "mail.example.org". split; [vm_compute; reflexivity|].
  split; [|repeat split; discriminate].
  unfold disposableDomains. intros H.
  repeat (apply elem_of_cons in H as [H|H]; [vm_compute in H; discriminate|]).
  inversion H.
Defined.

(** X15. The login handler changes the session only when it lets the
    address in: every refusal is the error page with the session as it was,
    and a redirect to "/" happens only for a non-empty address that
    [enhancedEmailValidation] accepted and whose domain, in lower case,
    contains none of the suspicious names; the session then holds that
    address, verified. *)
Theorem login_session (resolveMx : string -> mx_result)
    (body_email : option string) (s : session) :
  (exists message, login resolveMx body_email s = (ErrorPage message, s))
  \/ (exists address v domain,
        body_email = Some address /\ address <> ""
        /\ enhancedEmailValidation resolveMx address = Normal v /\ valid v = true
        /\ after_at address = Some domain
        /\ existsb (fun suspicious => includes (toLowerCase domain) suspicious)
             suspiciousDomains = false
        /\ login resolveMx body_email s = (Redirect "/", Session (Some address) true)).
Proof.
  unfold login. destruct body_email as [[|c address]|]; [left; eauto | | left; eauto].
  destruct (enhancedEmailValidation resolveMx (String c address)) as [v|e] eqn:Hv;
    [|left; eauto].
  destruct (valid v) eqn:Hvalid; cbn [negb]; [|left; eauto].
  destruct (after_at (String c address)) as [d|] eqn:Ha; [|left; eauto].
  cbv zeta.
  destruct (existsb _ suspiciousDomains) eqn:Hs; [left; eauto|].
  right. exists (String c address), v, d.
  repeat split; (assumption || discriminate || reflexivity).
Qed.

Lemma prefix_append (search rest : string) :
  String.prefix search (search +:+ rest) = true.
Proof.
  induction search as [|c search IH]; cbn; [destruct rest; reflexivity|].
  destruct (ascii_dec c c); [exact IH | congruence].
Qed.

(** [includes] finds a string wherever it occurs. *)
Lemma includes_append (before search after : string) :
  includes (before +:+ search +:+ after) search = true.
Proof.
  induction before as [|c before IH].
  - change ("" +:+ search +:+ after) with (search +:+ after).
    destruct (search +:+ after) eqn:E; cbn [includes];
      rewrite <- E, prefix_append; reflexivity.
  - change (String c before +:+ search +:+ after)
      with (String c (before +:+ search +:+ after)).
    cbn [includes]. rewrite IH. apply orb_true_r.
Qed.

(** X16. The suspicious-domain check matches substrings: an address whose
    domain, in lower case, contains "test" anywhere (contest.org,
    latest.io) is never logged in; when the validation accepted it, the
    answer is the error page asking for a real email domain. *)
Theorem login_refuses_test (resolveMx : string -> mx_result)
    (address domain before after : string) (s : session) :
  after_at address = Some domain ->
  toLowerCase domain = before +:+ "test" +:+ after ->
  (exists message, login resolveMx (Some address) s = (ErrorPage message, s))
  /\ (forall v, enhancedEmailValidation resolveMx address = Normal v ->
        valid v = true ->
        login resolveMx (Some address) s
        = (ErrorPage "Please use a real email domain (Gmail, Outlook, Yahoo, etc.)", s)).
Proof.
  intros Ha Hd.
  assert (Hs : existsb (fun suspicious => includes (toLowerCase domain) suspicious)
                 suspiciousDomains = true).
  { unfold suspiciousDomains. cbn [existsb]. rewrite Hd, (includes_append before "test" after).
    rewrite !orb_true_r. reflexivity. }
  split.
  - unfold login. destruct address as [|c address]; [discriminate Ha|].
    destruct (enhancedEmailValidation resolveMx (String c address)) as [v|e];
      [|eauto].
    destruct (valid v); cbn [negb]; [|eauto].
    rewrite Ha. cbv zeta. rewrite Hs. eauto.
  - intros v Hv Hvalid. unfold login.
    destruct address as [|c address]; [discriminate Ha|].
    rewrite Hv, Hvalid, Ha. cbn [negb]. cbv zeta. rewrite Hs. reflexivity.
Qed.

Lemma login_refuses_test_witness :
  login (fun _ => Records 2) (Some "ann@Contest.org") (Session None false)
  = (ErrorPage "Please use a real email domain (Gmail, Outlook, Yahoo, etc.)",
     Session None false).
Proof.
  apply (proj2 (login_refuses_test (fun _ => Records 2) "ann@Contest.org"
                  "Contest.org" "con" ".org" (Session None false)
                  eq_refl eq_refl)
           (Validation true None (Some 2%nat) None));
    [vm_compute; reflexivity | reflexivity].
Defined.

End Login.
